(** * Gesture recognition (src/utils/gestureRecognition.ts)

    A shallow embedding of the landmark-to-gesture pipeline: the geometric
    classifiers ([isFist], [isPalmOpen], [getPalmCenter]), the single-step
    direction ([getSwipeDirection]), the accumulating [SwipeTracker], the
    dispatcher [detectGesture] and the debouncing [GestureStateManager].

    Conventions of the embedding:
    - a JavaScript [number] holding a coordinate is an exact rational ([Q]);
      the thresholds are the decimal literals of the source.  Rounding, NaN
      and infinities of IEEE doubles are outside the model;
    - [frameCount] is a natural number, clock readings ([Date.now()]) and
      [cooldownMs] are integers ([Z]);
    - [LandmarkList | null] is [option LandmarkList];
    - reading a property of [undefined] (an index past the end of the
      array) raises a TypeError: such code returns [TypeError] in [result];
    - methods that mutate [this] are computations in a state monad over the
      object's fields. *)

From Stdlib Require Import QArith Qabs Qround Qminmax Lqa Lia List Bool ZArith.
From Stdlib Require Import Permutation.
From Stdlib Require String.
Import ListNotations.

Open Scope Q_scope.

(** ** Numbers and comparisons *)

Definition Qltb (a b : Q) : bool := negb (Qle_bool b a).
Definition Qgtb (a b : Q) : bool := Qltb b a.

Infix "<?" := Qltb (at level 70, no associativity) : Q_scope.
Infix ">?" := Qgtb (at level 70, no associativity) : Q_scope.

(** ** Errors *)

Inductive result (A : Type) : Type :=
| Ok (a : A)
| TypeError.
Arguments Ok {A} a.
Arguments TypeError {A}.

Definition rbind {A B : Type} (r : result A) (k : A -> result B) : result B :=
  match r with
  | Ok a => k a
  | TypeError => TypeError
  end.

Notation "'let?' v ':=' r 'in' k" := (rbind r (fun v => k))
  (at level 10, v name, r at level 100, k at level 200,
   format "'[v' 'let?'  v  ':='  r  'in' '/' k ']'").

(** ** Data model *)

Module LANDMARK.
Definition WRIST : nat := 0.
Definition THUMB_CMC : nat := 1.
Definition THUMB_MCP : nat := 2.
Definition THUMB_IP : nat := 3.
Definition THUMB_TIP : nat := 4.
Definition INDEX_MCP : nat := 5.
Definition INDEX_PIP : nat := 6.
Definition INDEX_DIP : nat := 7.
Definition INDEX_TIP : nat := 8.
Definition MIDDLE_MCP : nat := 9.
Definition MIDDLE_PIP : nat := 10.
Definition MIDDLE_DIP : nat := 11.
Definition MIDDLE_TIP : nat := 12.
Definition RING_MCP : nat := 13.
Definition RING_PIP : nat := 14.
Definition RING_DIP : nat := 15.
Definition RING_TIP : nat := 16.
Definition PINKY_MCP : nat := 17.
Definition PINKY_PIP : nat := 18.
Definition PINKY_DIP : nat := 19.
Definition PINKY_TIP : nat := 20.
End LANDMARK.

Record Point : Type := mkPoint { x : Q; y : Q; z : option Q }.

Definition Landmark : Type := Point.
Definition LandmarkList : Type := list Landmark.

Inductive Gesture : Type :=
| swipe_left | swipe_right | swipe_up | fist | none.

Inductive Direction : Type := left | right | up.

Definition Gesture_eqb (g h : Gesture) : bool :=
  match g, h with
  | swipe_left, swipe_left | swipe_right, swipe_right
  | swipe_up, swipe_up | fist, fist | none, none => true
  | _, _ => false
  end.

Definition Direction_eqb (d e : Direction) : bool :=
  match d, e with
  | left, left | right, right | up, up => true
  | _, _ => false
  end.

Definition SWIPE_THRESHOLD : Q := 0.06.
Definition SWIPE_FRAME_THRESHOLD : Q := 0.015.
Definition FIST_THRESHOLD : Q := 0.07.

(** [landmarks[i]], followed by a property read. *)
Definition item (landmarks : LandmarkList) (i : nat) : result Landmark :=
  match nth_error landmarks i with
  | Some p => Ok p
  | None => TypeError
  end.

(** [!landmarks || landmarks.length < 21] *)
Definition noHand (landmarks : option LandmarkList) : bool :=
  match landmarks with
  | None => true
  | Some l => (length l <? 21)%nat
  end.

(** ** GeometricClassifier *)

Definition isFingerClosed (landmarks : LandmarkList) (tipIndex mcpIndex : nat)
  : result bool :=
  let? tip := item landmarks tipIndex in
  let? mcp := item landmarks mcpIndex in
  let yDistance := y mcp - y tip in
  Ok (yDistance <? FIST_THRESHOLD).

Definition isFist (landmarks : option LandmarkList) : result bool :=
  match landmarks with
  | None => Ok false
  | Some l =>
    if (length l <? 21)%nat then Ok false else
    let? indexClosed := isFingerClosed l LANDMARK.INDEX_TIP LANDMARK.INDEX_MCP in
    let? middleClosed := isFingerClosed l LANDMARK.MIDDLE_TIP LANDMARK.MIDDLE_MCP in
    let? ringClosed := isFingerClosed l LANDMARK.RING_TIP LANDMARK.RING_MCP in
    let? pinkyClosed := isFingerClosed l LANDMARK.PINKY_TIP LANDMARK.PINKY_MCP in
    Ok (indexClosed && middleClosed && ringClosed && pinkyClosed)
  end.

Definition OPEN_THRESHOLD : Q := 0.05.

(** [(landmarks[mcp].y - landmarks[tip].y) > OPEN_THRESHOLD] *)
Definition fingerOpen (landmarks : LandmarkList) (mcpIndex tipIndex : nat)
  : result bool :=
  let? mcp := item landmarks mcpIndex in
  let? tip := item landmarks tipIndex in
  Ok ((y mcp - y tip) >? OPEN_THRESHOLD).

Definition isPalmOpen (landmarks : option LandmarkList) : result bool :=
  match landmarks with
  | None => Ok false
  | Some l =>
    if (length l <? 21)%nat then Ok false else
    let? indexOpen := fingerOpen l LANDMARK.INDEX_MCP LANDMARK.INDEX_TIP in
    let? middleOpen := fingerOpen l LANDMARK.MIDDLE_MCP LANDMARK.MIDDLE_TIP in
    let? ringOpen := fingerOpen l LANDMARK.RING_MCP LANDMARK.RING_TIP in
    let? pinkyOpen := fingerOpen l LANDMARK.PINKY_MCP LANDMARK.PINKY_TIP in
    let openCount :=
      length (filter (fun b : bool => b)
                     [indexOpen; middleOpen; ringOpen; pinkyOpen]) in
    Ok (3 <=? openCount)%nat
  end.

Definition mcpIndices : list nat :=
  [LANDMARK.WRIST; LANDMARK.INDEX_MCP; LANDMARK.MIDDLE_MCP;
   LANDMARK.RING_MCP; LANDMARK.PINKY_MCP].

(** The [for (const idx of mcpIndices)] loop, carrying [sumX] and [sumY]. *)
Fixpoint sumLoop (landmarks : LandmarkList) (idxs : list nat) (sumX sumY : Q)
  : result (Q * Q) :=
  match idxs with
  | [] => Ok (sumX, sumY)
  | idx :: rest =>
    let? p := item landmarks idx in
    sumLoop landmarks rest (sumX + x p) (sumY + y p)
  end.

Definition getPalmCenter (landmarks : option LandmarkList) : result Point :=
  match landmarks with
  | None => Ok (mkPoint 0 0 None)
  | Some l =>
    if (length l <? 21)%nat then Ok (mkPoint 0 0 None) else
    let? sums := sumLoop l mcpIndices 0 0 in
    let n := inject_Z (Z.of_nat (length mcpIndices)) in
    Ok (mkPoint (fst sums / n) (snd sums / n) None)
  end.

(** ** Single-step direction *)

Definition getSwipeDirection (currentCenter previousCenter : Point)
  : option Direction :=
  let deltaX := x currentCenter - x previousCenter in
  let deltaY := y currentCenter - y previousCenter in
  if deltaY <? - SWIPE_FRAME_THRESHOLD then Some up
  else if deltaX >? SWIPE_FRAME_THRESHOLD then Some left
  else if deltaX <? - SWIPE_FRAME_THRESHOLD then Some right
  else None.

(** ** Methods that mutate [this] *)

Definition Method (T A : Type) : Type := T -> A * T.

Definition ret {T A : Type} (a : A) : Method T A := fun s => (a, s).

Definition bind {T A B : Type} (m : Method T A) (k : A -> Method T B)
  : Method T B :=
  fun s => let (a, s') := m s in k a s'.

Definition get {T : Type} : Method T T := fun s => (s, s).

Definition modify {T : Type} (f : T -> T) : Method T unit :=
  fun s => (tt, f s).

Definition when {T : Type} (b : bool) (m : Method T unit) : Method T unit :=
  if b then m else ret tt.

Notation "v <- m ;; k" := (bind m (fun v => k))
  (at level 61, m at next level, right associativity).
Notation "m ;; k" := (bind m (fun _ => k))
  (at level 61, right associativity).

(** ** MotionTracker: [class SwipeTracker] *)

Module SwipeTracker.

Record t : Type := mk {
  accumulatedX : Q;
  accumulatedY : Q;
  frameCount : nat;
  lastDirection : option Direction
}.

Definition maxFrames : nat := 10.

(** Field initialisers of the class. *)
Definition new : t := mk 0 0 0 None.

Definition set_accumulatedX (v : Q) (s : t) : t :=
  mk v (accumulatedY s) (frameCount s) (lastDirection s).
Definition set_accumulatedY (v : Q) (s : t) : t :=
  mk (accumulatedX s) v (frameCount s) (lastDirection s).
Definition set_frameCount (v : nat) (s : t) : t :=
  mk (accumulatedX s) (accumulatedY s) v (lastDirection s).
Definition set_lastDirection (v : option Direction) (s : t) : t :=
  mk (accumulatedX s) (accumulatedY s) (frameCount s) v.

Definition reset : Method t unit :=
  modify (set_accumulatedX 0) ;;
  modify (set_accumulatedY 0) ;;
  modify (set_frameCount 0) ;;
  modify (set_lastDirection None).

(** [this.lastDirection && currentDir && currentDir !== this.lastDirection] *)
Definition directionChanged (lastDir currentDir : option Direction) : bool :=
  match lastDir, currentDir with
  | Some l, Some c => negb (Direction_eqb c l)
  | _, _ => false
  end.

(** The expression bound to [currentDir] in [track]. *)
Definition dominantDirection (deltaX deltaY : Q) : option Direction :=
  if (Qabs deltaY >? Qabs deltaX) && (deltaY <? 0) then Some up
  else if deltaX >? 0 then Some left
  else if deltaX <? 0 then Some right
  else None.

Definition track (currentCenter previousCenter : Point)
  : Method t (option Direction) :=
  let deltaX := x currentCenter - x previousCenter in
  let deltaY := y currentCenter - y previousCenter in
  let currentDir := dominantDirection deltaX deltaY in
  this <- get ;;
  when (directionChanged (lastDirection this) currentDir) reset ;;
  modify (set_lastDirection currentDir) ;;
  modify (fun this => set_accumulatedX (accumulatedX this + deltaX) this) ;;
  modify (fun this => set_accumulatedY (accumulatedY this + deltaY) this) ;;
  modify (fun this => set_frameCount (S (frameCount this)) this) ;;
  this <- get ;;
  if accumulatedY this <? - SWIPE_THRESHOLD then
    reset ;; ret (Some up)
  else if Qabs (accumulatedX this) >? SWIPE_THRESHOLD then
    let result := if accumulatedX this >? 0 then left else right in
    reset ;; ret (Some result)
  else
    when (maxFrames <=? frameCount this)%nat reset ;;
    ret None.

End SwipeTracker.

(** ** GestureDispatcher *)

Definition detectGesture (landmarks previousLandmarks : option LandmarkList)
  : result Gesture :=
  if noHand landmarks then Ok none else
  let? f := isFist landmarks in
  if f then Ok fist else
  if negb (noHand previousLandmarks) then
    let? currentCenter := getPalmCenter landmarks in
    let? previousCenter := getPalmCenter previousLandmarks in
    let swipeDirection := getSwipeDirection currentCenter previousCenter in
    match swipeDirection with
    | Some up => Ok swipe_up
    | Some left => Ok swipe_left
    | Some right => Ok swipe_right
    | None => Ok none
    end
  else Ok none.

(** ** DebounceGate: [class GestureStateManager] *)

Module GestureStateManager.

Record t : Type := mk {
  lastGesture : Gesture;
  gestureStartTime : Z;
  cooldownMs : Z
}.

(** [constructor(cooldownMs = 500)] *)
Definition new (cooldown : option Z) : t :=
  mk none 0 (match cooldown with Some c => c | None => 500%Z end).

Definition set_lastGesture (g : Gesture) (s : t) : t :=
  mk g (gestureStartTime s) (cooldownMs s).
Definition set_gestureStartTime (v : Z) (s : t) : t :=
  mk (lastGesture s) v (cooldownMs s).

(** [now] is the value read from [Date.now()] at the start of the call. *)
Definition processGesture (gesture : Gesture) (now : Z)
  : Method t (option Gesture) :=
  this <- get ;;
  if Gesture_eqb gesture (lastGesture this)
     && negb (Gesture_eqb gesture none) then ret None
  else if (now - gestureStartTime this <? cooldownMs this)%Z
          && negb (Gesture_eqb gesture none) then ret None
  else if negb (Gesture_eqb gesture none) then
    modify (set_lastGesture gesture) ;;
    modify (set_gestureStartTime now) ;;
    ret (Some gesture)
  else
    when (Gesture_eqb gesture none
          && negb (Gesture_eqb (lastGesture this) none))
         (modify (set_lastGesture none)) ;;
    ret None.

Definition reset : Method t unit :=
  modify (set_lastGesture none) ;;
  modify (set_gestureStartTime 0%Z).

End GestureStateManager.

(** ** The caller's two-tier step (GestureCardSelector.tsx, [processFrame])

    [detectGesture] first; the tracker is fed only when it answered ['none']
    and a previous frame is stored. *)

Definition frameGesture (landmarks : LandmarkList)
           (previousLandmarks : option LandmarkList)
           (swipeTracker : SwipeTracker.t)
  : result (Gesture * SwipeTracker.t) :=
  let? gesture := detectGesture (Some landmarks) previousLandmarks in
  match gesture, previousLandmarks with
  | none, Some _ =>
    let? currentCenter := getPalmCenter (Some landmarks) in
    let? previousCenter := getPalmCenter previousLandmarks in
    let (swipeResult, swipeTracker') :=
      SwipeTracker.track currentCenter previousCenter swipeTracker in
    match swipeResult with
    | Some up => Ok (swipe_up, swipeTracker')
    | Some left => Ok (swipe_left, swipeTracker')
    | Some right => Ok (swipe_right, swipeTracker')
    | None => Ok (gesture, swipeTracker')
    end
  | _, _ => Ok (gesture, swipeTracker)
  end.

(** ** Fixtures of the test suite (gestureRecognition.test.ts) *)

Module Fixtures.

Definition pt (px py : Q) : Point := mkPoint px py None.

(** [createLandmarks(overrides)]: 21 points [{x: 0.5, y: 0.5, z: 0}],
    replaced where [overrides] has a key (the keys used are below 21). *)
Definition createLandmarks (overrides : nat -> option Point) : LandmarkList :=
  map (fun i => match overrides i with
                | Some p => p
                | None => mkPoint 0.5 0.5 (Some 0)
                end) (seq 0 21).

(** A nine-joint override: wrist, then MCP and tip of the four fingers. *)
Definition hand (wrist iMcp iTip mMcp mTip rMcp rTip pMcp pTip : Point)
  : nat -> option Point :=
  fun i =>
    match i with
    | 0 => Some wrist
    | 5 => Some iMcp | 8 => Some iTip
    | 9 => Some mMcp | 12 => Some mTip
    | 13 => Some rMcp | 16 => Some rTip
    | 17 => Some pMcp | 20 => Some pTip
    | _ => None
    end%nat.

Definition createOpenPalmLandmarks : LandmarkList :=
  createLandmarks
    (hand (pt 0.5 0.8) (pt 0.4 0.6) (pt 0.35 0.3) (pt 0.5 0.55) (pt 0.5 0.25)
          (pt 0.6 0.6) (pt 0.65 0.3) (pt 0.7 0.65) (pt 0.75 0.35)).

Definition createFistLandmarks : LandmarkList :=
  createLandmarks
    (hand (pt 0.5 0.8) (pt 0.4 0.5) (pt 0.42 0.52) (pt 0.5 0.48) (pt 0.5 0.55)
          (pt 0.6 0.5) (pt 0.58 0.55) (pt 0.7 0.52) (pt 0.68 0.58)).

(** [currLandmarks] of the test "should return swipe-left when hand moves
    right". *)
Definition movedRight : LandmarkList :=
  createLandmarks
    (hand (pt 0.7 0.8) (pt 0.6 0.6) (pt 0.55 0.3) (pt 0.7 0.55) (pt 0.7 0.25)
          (pt 0.8 0.6) (pt 0.85 0.3) (pt 0.9 0.65) (pt 0.95 0.35)).

(** [currLandmarks] of the test "should return swipe-right when hand moves
    left". *)
Definition movedLeft : LandmarkList :=
  createLandmarks
    (hand (pt 0.3 0.8) (pt 0.2 0.6) (pt 0.15 0.3) (pt 0.3 0.55) (pt 0.3 0.25)
          (pt 0.4 0.6) (pt 0.45 0.3) (pt 0.5 0.65) (pt 0.55 0.35)).

(** [currLandmarks] of the test "should return swipe-up when hand moves
    upward". *)
Definition movedUp : LandmarkList :=
  createLandmarks
    (hand (pt 0.5 0.6) (pt 0.4 0.4) (pt 0.35 0.1) (pt 0.5 0.35) (pt 0.5 0.05)
          (pt 0.6 0.4) (pt 0.65 0.1) (pt 0.7 0.45) (pt 0.75 0.15)).

End Fixtures.

(** ** Vocabulary of the statements *)

(** A frame of 22 points: the fist fixture with one more point appended. *)
Definition longFist : LandmarkList :=
  Fixtures.createFistLandmarks ++ [Fixtures.pt 0.5 0.5].

(** A frame of 22 points: the open-palm fixture with one more point. *)
Definition longOpenPalm : LandmarkList :=
  Fixtures.createOpenPalmLandmarks ++ [Fixtures.pt 0.5 0.5].

(** Every fingertip 0.06 above its knuckle. *)
Definition halfCurled : LandmarkList :=
  Fixtures.createLandmarks
    (Fixtures.hand (Fixtures.pt 0.5 0.8)
       (Fixtures.pt 0.4 0.5) (Fixtures.pt 0.4 0.44)
       (Fixtures.pt 0.5 0.5) (Fixtures.pt 0.5 0.44)
       (Fixtures.pt 0.6 0.5) (Fixtures.pt 0.6 0.44)
       (Fixtures.pt 0.7 0.5) (Fixtures.pt 0.7 0.44)).

(** The (tip, mcp) pairs tested by [isFist] and [isPalmOpen]. *)
Definition nonThumbFingers : list (nat * nat) :=
  [(LANDMARK.INDEX_TIP, LANDMARK.INDEX_MCP);
   (LANDMARK.MIDDLE_TIP, LANDMARK.MIDDLE_MCP);
   (LANDMARK.RING_TIP, LANDMARK.RING_MCP);
   (LANDMARK.PINKY_TIP, LANDMARK.PINKY_MCP)].

(** [mcp.y - tip.y] of a finger lies strictly between [lo] and [hi]. *)
Definition gapBetween (l : LandmarkList) (lo hi : Q) (finger : nat * nat)
  : Prop :=
  exists tip mcp,
    nth_error l (fst finger) = Some tip /\
    nth_error l (snd finger) = Some mcp /\
    lo < y mcp - y tip /\ y mcp - y tip < hi.

(** The gesture a direction is reported as. *)
Definition swipeOf (d : option Direction) : Gesture :=
  match d with
  | Some up => swipe_up
  | Some left => swipe_left
  | Some right => swipe_right
  | None => none
  end.

(** Two frames hold the same [x] and [y] at index [i] (same number: [==]). *)
Definition sameXY (l1 l2 : LandmarkList) (i : nat) : Prop :=
  match nth_error l1 i, nth_error l2 i with
  | Some p, Some q => x p == x q /\ y p == y q
  | _, _ => False
  end.

(** Two frames hold the same representation of [x] and [y] at index [i]. *)
Definition identicalXY (l1 l2 : LandmarkList) (i : nat) : Prop :=
  match nth_error l1 i, nth_error l2 i with
  | Some p, Some q => x p = x q /\ y p = y q
  | _, _ => False
  end.

(** Two calls return the same point. *)
Definition samePoint (r1 r2 : result Point) : Prop :=
  match r1, r2 with
  | Ok c1, Ok c2 => x c1 == x c2 /\ y c1 == y c2 /\ z c1 = z c2
  | _, _ => False
  end.

(** ** The tracker's step algorithm, after the specification

    The step is described as a relation between the state before the call,
    the two palm centres, the value returned and the state after the call. *)

Module TrackSpec.
Import SwipeTracker.

(** The vertical part dominates and points upward. *)
Definition upward (dx dy : Q) : Prop := Qabs dx < Qabs dy /\ dy < 0.

(** Step 2: the instantaneous dominant direction. *)
Inductive instantaneous (dx dy : Q) : option Direction -> Prop :=
| inst_up : upward dx dy -> instantaneous dx dy (Some up)
| inst_left : ~ upward dx dy -> 0 < dx -> instantaneous dx dy (Some left)
| inst_right : ~ upward dx dy -> dx < 0 -> instantaneous dx dy (Some right)
| inst_none : ~ upward dx dy -> ~ 0 < dx -> ~ dx < 0 ->
              instantaneous dx dy None.

(** Step 3: a direction was recorded, the new one is non-none and differs. *)
Definition reversal (last d : option Direction) : Prop :=
  exists l c, last = Some l /\ d = Some c /\ c <> l.

(** The sums and the frame count that step 4 starts from. *)
Inductive startsFrom (s : t) (d : option Direction) : Q -> Q -> nat -> Prop :=
| from_zero : reversal (lastDirection s) d -> startsFrom s d 0 0 0
| from_state : ~ reversal (lastDirection s) d ->
               startsFrom s d (accumulatedX s) (accumulatedY s) (frameCount s).

(** All state zeroed. *)
Definition zeroed : t := mk 0 0 0 None.

(** Steps 4 to 8, on the sums [ax], [ay] and the count [n] after the delta
    was added. *)
Inductive outcome (ax ay : Q) (n : nat) (d : option Direction)
  : option Direction -> t -> Prop :=
| out_up : ay < - 0.06 -> outcome ax ay n d (Some up) zeroed
| out_left : ~ ay < - 0.06 -> 0.06 < Qabs ax -> 0 < ax ->
             outcome ax ay n d (Some left) zeroed
| out_right : ~ ay < - 0.06 -> 0.06 < Qabs ax -> ~ 0 < ax ->
              outcome ax ay n d (Some right) zeroed
| out_stale : ~ ay < - 0.06 -> ~ 0.06 < Qabs ax -> (10 <= n)%nat ->
              outcome ax ay n d None zeroed
| out_accumulating : ~ ay < - 0.06 -> ~ 0.06 < Qabs ax -> (n < 10)%nat ->
                     outcome ax ay n d None (mk ax ay n d).

Inductive step (s : t) (currentCenter previousCenter : Point)
  : option Direction -> t -> Prop :=
| step_intro d ax ay n r s' :
    let dx := x currentCenter - x previousCenter in
    let dy := y currentCenter - y previousCenter in
    instantaneous dx dy d ->
    startsFrom s d ax ay n ->
    outcome (ax + dx) (ay + dy) (S n) d r s' ->
    step s currentCenter previousCenter r s'.

End TrackSpec.

(** ** Histories of a tracker *)

Inductive TrackerCall : Type :=
| CallTrack (currentCenter previousCenter : Point)
| CallReset.

Definition perform (c : TrackerCall) (s : SwipeTracker.t)
  : option Direction * SwipeTracker.t :=
  match c with
  | CallTrack cur prev => SwipeTracker.track cur prev s
  | CallReset => (None, snd (SwipeTracker.reset s))
  end.

(** The state after a sequence of calls on a fresh tracker. *)
Definition stateAfter (calls : list TrackerCall) : SwipeTracker.t :=
  fold_left (fun s c => snd (perform c s)) calls SwipeTracker.new.

(** What every state left behind by a call satisfies. *)
Definition withinBounds (s : SwipeTracker.t) : Prop :=
  (0 <= SwipeTracker.frameCount s <= 9)%nat /\
  Qabs (SwipeTracker.accumulatedX s) <= 0.06 /\
  - 0.06 <= SwipeTracker.accumulatedY s.

(** ** Histories of a debounce gate *)

(** The same raw gesture offered at each of the given clock readings. *)
Fixpoint offerAll (gesture : Gesture) (times : list Z)
         (s : GestureStateManager.t)
  : list (option Gesture) * GestureStateManager.t :=
  match times with
  | [] => ([], s)
  | now :: rest =>
    let (r, s') := GestureStateManager.processGesture gesture now s in
    let (rs, s'') := offerAll gesture rest s' in
    (r :: rs, s'')
  end.

(** ** The whole hand moved by a vector *)

Definition translate (dx dy : Q) (landmarks : LandmarkList) : LandmarkList :=
  map (fun p => mkPoint (x p + dx) (y p + dy) (z p)) landmarks.

(** ** Card selection (GestureCardSelector.tsx) *)

Module Card.
Record t : Type := mk {
  id : String.string;
  name : String.string;
  image : String.string;
  isReversed : option bool
}.
End Card.

(** [ids.includes(cardId)] *)
Definition includes (ids : list String.string) (cardId : String.string) : bool :=
  existsb (String.eqb cardId) ids.

(** The updater passed to [setSelectedCardIds] by [handleCardSelect]: the
    next selection, and whether [setIsComplete(true)] was called. *)
Definition handleCardSelect (maxSelections : Z) (cardId : String.string)
           (prev : list String.string) : list String.string * bool :=
  if includes prev cardId then
    (filter (fun id => negb (String.eqb id cardId)) prev, false)
  else if (Z.of_nat (length prev) <? maxSelections)%Z then
    let newSelection := prev ++ [cardId] in
    (newSelection, (Z.of_nat (length newSelection) =? maxSelections)%Z)
  else (prev, false).

(** The two pieces of component state [handleCardSelect] writes. *)
Record Selection : Type := mkSelection {
  selectedCardIds : list String.string;
  isComplete : bool
}.

Definition selectCard (maxSelections : Z) (cardId : String.string)
           (s : Selection) : Selection :=
  let (next, completed) :=
    handleCardSelect maxSelections cardId (selectedCardIds s) in
  mkSelection next (if completed then true else isComplete s).

(** [handleComplete]: the argument handed to [onSelectionComplete]. *)
Definition handleComplete (cards : list Card.t) (selected : list String.string)
  : list Card.t :=
  filter (fun card => includes selected (Card.id card)) cards.

(** The card index under the palm, as computed in [processFrame]. *)
Definition cardIndexAt (palmCenter : Point) (cardCount : nat) : Z :=
  let mirroredX := 1 - x palmCenter in
  let padding := 0.1 in
  let effectiveWidth := 1 - 2 * padding in
  let adjustedX :=
    Qmax 0 (Qmin 1 ((mirroredX - padding) / effectiveWidth)) in
  Qfloor (adjustedX * inject_Z (Z.of_nat cardCount)).

(** [if (cardIndex >= 0 && cardIndex < cards.length) setHoveredIndex(...)]:
    the index handed to [setHoveredIndex], if it is called. *)
Definition hoverUpdate (palmCenter : Point) (cardCount : nat) : option Z :=
  let cardIndex := cardIndexAt palmCenter cardCount in
  if (0 <=? cardIndex)%Z && (cardIndex <? Z.of_nat cardCount)%Z
  then Some cardIndex else None.

(** ** One animation frame ([processFrame], the body of its [try]) *)

(** The three refs the frame loop reads and writes. *)
Record Refs : Type := mkRefs {
  previousLandmarksRef : option LandmarkList;
  swipeTrackerRef : SwipeTracker.t;
  gestureManagerRef : GestureStateManager.t
}.

(** What a frame asks of the component: the [setIsDetected] argument, the
    [setHoveredIndex] call if any ([Some None] is [setHoveredIndex(null)]),
    the debounced gesture, and the argument of [handleCardSelect] if it is
    called. *)
Record FrameEffects : Type := mkEffects {
  isDetected : bool;
  hoveredIndexSet : option (option Z);
  validGesture : option Gesture;
  cardSelected : option String.string
}.

(** [idx !== null && idx >= 0 && idx < cards.length], then [cards[idx].id]. *)
Definition hoveredCard (cards : list Card.t) (hoveredIndexRef : option Z)
  : result (option String.string) :=
  match hoveredIndexRef with
  | Some idx =>
    if (0 <=? idx)%Z && (idx <? Z.of_nat (length cards))%Z then
      match nth_error cards (Z.to_nat idx) with
      | Some card => Ok (Some (Card.id card))
      | None => TypeError
      end
    else Ok None
  | None => Ok None
  end.

(** [hands] is [results.landmarks], [hoveredIndexRef] the value of the ref
    when the frame runs and [now] the reading of [Date.now()]. *)
Definition processFrame (cards : list Card.t) (hands : list LandmarkList)
           (hoveredIndexRef : option Z) (now : Z) (refs : Refs)
  : result (FrameEffects * Refs) :=
  match hands with
  | landmarks :: _ =>
    let? palmCenter := getPalmCenter (Some landmarks) in
    let hover :=
      match hoverUpdate palmCenter (length cards) with
      | Some cardIndex => Some (Some cardIndex)
      | None => None
      end in
    let? detected :=
      frameGesture landmarks (previousLandmarksRef refs)
                   (swipeTrackerRef refs) in
    let (detectedGesture, swipeTracker) := detected in
    let (validGesture, gestureManager) :=
      GestureStateManager.processGesture detectedGesture now
        (gestureManagerRef refs) in
    let refs' := mkRefs (Some landmarks) swipeTracker gestureManager in
    match validGesture with
    | Some g =>
      if Gesture_eqb g swipe_up || Gesture_eqb g fist then
        let? selected := hoveredCard cards hoveredIndexRef in
        Ok (mkEffects true hover validGesture selected, refs')
      else Ok (mkEffects true hover validGesture None, refs')
    | None => Ok (mkEffects true hover None None, refs')
    end
  | [] =>
    Ok (mkEffects false (Some None) None None,
        mkRefs None
               (snd (SwipeTracker.reset (swipeTrackerRef refs)))
               (gestureManagerRef refs))
  end.

(** The frame loop over a recording: one entry per frame, with the hands
    detected, the hovered index and the clock reading at that frame. *)
Fixpoint processFrames (cards : list Card.t)
         (frames : list (list LandmarkList * option Z * Z)) (refs : Refs)
  : result (list FrameEffects * Refs) :=
  match frames with
  | [] => Ok ([], refs)
  | (hands, hoveredIndexRef, now) :: rest =>
    let? step := processFrame cards hands hoveredIndexRef now refs in
    let? more := processFrames cards rest (snd step) in
    Ok (fst step :: fst more, snd more)
  end.

(** [useRef(null)], [useRef(new SwipeTracker())] and
    [useRef(new GestureStateManager(600))]. *)
Definition initialRefs : Refs :=
  mkRefs None SwipeTracker.new (GestureStateManager.new (Some 600%Z)).

(** ** Fan layout (CardFan.tsx, [cardPositions]) *)

Record FanPosition : Type := mkFan { fanX : Q; fanY : Q; rotate : Q }.

Definition cardPosition (count index : nat) : FanPosition :=
  let centerIndex := (inject_Z (Z.of_nat count) - 1) / 2 in
  let baseAngle := 5 in
  let xSpacing := 40 in
  let offsetFromCenter := inject_Z (Z.of_nat index) - centerIndex in
  mkFan (offsetFromCenter * xSpacing)
        (Qabs offsetFromCenter * Qabs offsetFromCenter * 2)
        (offsetFromCenter * baseAngle).

Definition cardPositions (count : nat) : list FanPosition :=
  map (cardPosition count) (seq 0 count).

(** ** Runs of the tracker *)

(** [track] called on each pair (current centre, previous centre) in turn. *)
Fixpoint trackAll (steps : list (Point * Point)) (s : SwipeTracker.t)
  : list (option Direction) * SwipeTracker.t :=
  match steps with
  | [] => ([], s)
  | (currentCenter, previousCenter) :: rest =>
    let (r, s') := SwipeTracker.track currentCenter previousCenter s in
    let (rs, s'') := trackAll rest s' in
    (r :: rs, s'')
  end.

Definition stepX (step : Point * Point) : Q := x (fst step) - x (snd step).
Definition stepY (step : Point * Point) : Q := y (fst step) - y (snd step).

Definition stepDirection (step : Point * Point) : option Direction :=
  SwipeTracker.dominantDirection (stepX step) (stepY step).

(** The sums as the tracker forms them: from 0, one step after the other. *)
Definition sumX (steps : list (Point * Point)) : Q :=
  fold_left (fun acc step => acc + stepX step) steps 0.
Definition sumY (steps : list (Point * Point)) : Q :=
  fold_left (fun acc step => acc + stepY step) steps 0.

(** Neither threshold of the tracker is crossed by the summed motion. *)
Definition withinThresholds (steps : list (Point * Point)) : Prop :=
  - 0.06 <= sumY steps /\ Qabs (sumX steps) <= 0.06.

(** No non-empty prefix of the run crosses a threshold. *)
Definition calm (steps : list (Point * Point)) : Prop :=
  forall k, (k <= length steps)%nat -> withinThresholds (firstn k steps).

(** The state a calm run of same-direction steps leaves behind. *)
Definition integrated (steps : list (Point * Point)) (d : Direction)
  : SwipeTracker.t :=
  SwipeTracker.mk (sumX steps) (sumY steps) (length steps)
                  (match steps with [] => None | _ => Some d end).

(** Every step has a direction, and it differs from the one before. *)
Fixpoint wavering (last : option Direction) (steps : list (Point * Point))
  : Prop :=
  match steps with
  | [] => True
  | step :: rest =>
    (exists d, stepDirection step = Some d /\ last <> Some d) /\
    wavering (stepDirection step) rest
  end.

(** The sums of a tracker that was fed steps of at most 0.015 only. *)
Definition slowlyFed (s : SwipeTracker.t) : Prop :=
  let n := inject_Z (Z.of_nat (SwipeTracker.frameCount s)) in
  Qabs (SwipeTracker.accumulatedX s) <= 0.015 * n /\
  - (0.015 * n) <= SwipeTracker.accumulatedY s.

(** A recording in which every detected hand has its 21 landmarks. *)
Definition fullHands (frames : list (list LandmarkList * option Z * Z)) : Prop :=
  Forall (fun frame =>
            match fst (fst frame) with
            | landmarks :: _ => (21 <= length landmarks)%nat
            | [] => True
            end) frames.

(** Sample runs: [n] equal steps of the palm centre by (dx, dy). *)
Definition steadySteps (dx dy : Q) (n : nat) : list (Point * Point) :=
  repeat (mkPoint (0.5 + dx) (0.5 + dy) None, mkPoint 0.5 0.5 None) n.

(** A single step too small to cross a threshold on its own. *)
Definition gentle (step : Point * Point) : Prop :=
  Qabs (stepX step) <= 0.06 /\ - 0.06 <= stepY step.

(** A hand going back and forth by 0.05 along [x]. *)
Definition backAndForth : list (Point * Point) :=
  [(mkPoint 0.55 0.5 None, mkPoint 0.5 0.5 None);
   (mkPoint 0.5 0.5 None, mkPoint 0.55 0.5 None);
   (mkPoint 0.55 0.5 None, mkPoint 0.5 0.5 None);
   (mkPoint 0.5 0.5 None, mkPoint 0.55 0.5 None)].

(** What the frame loop keeps true of its refs when every hand is full. *)
Definition steadyRefs (refs : Refs) : Prop :=
  slowlyFed (swipeTrackerRef refs) /\
  match previousLandmarksRef refs with
  | Some previous => (21 <= length previous)%nat
  | None => True
  end.

(** A recording of the open-palm fixture drifting by 0.014 per frame. *)
Definition driftingPalm (n : nat) : list (list LandmarkList * option Z * Z) :=
  map (fun k => ([translate (0.014 * inject_Z (Z.of_nat k)) 0
                    Fixtures.createOpenPalmLandmarks],
                 None, (1700000000000 + 33 * Z.of_nat k)%Z))
      (seq 0 n).

(** ** Runs of the debounce gate *)

(** The events that come out of the gate, with the clock reading of each,
    when the raw gestures [inputs] are offered in turn. *)
Fixpoint emissions (inputs : list (Gesture * Z)) (s : GestureStateManager.t)
  : list (Gesture * Z) :=
  match inputs with
  | [] => []
  | (gesture, now) :: rest =>
    let (r, s') := GestureStateManager.processGesture gesture now s in
    match r with
    | Some g => (g, now) :: emissions rest s'
    | None => emissions rest s'
    end
  end.

(** Each reading is at least [cooldown] after the one before it. *)
Fixpoint spaced (cooldown last : Z) (times : list Z) : Prop :=
  match times with
  | [] => True
  | t :: rest => (cooldown <= t - last)%Z /\ spaced cooldown t rest
  end.

(** No gesture equals the one before it. *)
Fixpoint noRepeat (last : Gesture) (gestures : list Gesture) : Prop :=
  match gestures with
  | [] => True
  | g :: rest => g <> last /\ noRepeat g rest
  end.

(** The selection after the cards [cardIds] were picked in turn, starting
    from [s]. *)
Definition selectAll (maxSelections : Z) (cardIds : list String.string)
           (s : Selection) : Selection :=
  fold_left (fun sel cardId => selectCard maxSelections cardId sel) cardIds s.

(** Card ids of the sample deck, and an order of picking them. *)
Module SampleIds.
Import String.
Local Open Scope string_scope.
Definition picks : list string := ["0"; "4"; "7"; "9"; "4"; "2"; "5"].
Definition kept : list string := ["0"; "7"; "2"].
Definition deck : list Card.t :=
  map (fun i => Card.mk i i "/assets/cards/placeholder.png" None)
      ["0"; "1"; "2"; "3"; "4"; "5"; "6"; "7"; "8"; "9"].
End SampleIds.

(** * Properties *)

(** ** Comparisons *)

Lemma Qltb_spec (a b : Q) : reflect (a < b) (a <? b).
Proof.
  unfold Qltb. destruct (Qle_bool b a) eqn:E; constructor.
  - apply Qle_bool_iff in E. lra.
  - destruct (Qlt_le_dec a b) as [H|H]; [exact H|].
    apply Qle_bool_iff in H. congruence.
Qed.

Lemma Qgtb_spec (a b : Q) : reflect (b < a) (a >? b).
Proof. exact (Qltb_spec b a). Qed.

Lemma Gesture_eqb_spec (g h : Gesture) : reflect (g = h) (Gesture_eqb g h).
Proof. destruct g, h; constructor; congruence. Qed.

Lemma Direction_eqb_spec (d e : Direction) : reflect (d = e) (Direction_eqb d e).
Proof. destruct d, e; constructor; congruence. Qed.

(** ** Frames with a hand: no index of the joint enumeration is missing *)

Lemma item_in_range (l : LandmarkList) (i : nat) :
  (i < length l)%nat -> exists p, item l i = Ok p.
Proof.
  intro H. unfold item. destruct (nth_error l i) eqn:E.
  - eauto.
  - apply nth_error_None in E. lia.
Qed.

Lemma noHand_false (l : LandmarkList) :
  (21 <= length l)%nat -> (length l <? 21)%nat = false.
Proof. intro H. apply Nat.ltb_ge. exact H. Qed.

Lemma noHand_true (f : option LandmarkList) :
  noHand f = true <->
  f = None \/ exists l, f = Some l /\ (length l < 21)%nat.
Proof.
  destruct f as [l|]; simpl.
  - rewrite Nat.ltb_lt. split.
    + intro H. right. eauto.
    + intros [H|[l' [H1 H2]]]; [discriminate|]. injection H1 as <-. exact H2.
  - split; auto.
Qed.

Lemma isFingerClosed_in_range (l : LandmarkList) (tip mcp : nat) :
  (tip < length l)%nat -> (mcp < length l)%nat ->
  exists b, isFingerClosed l tip mcp = Ok b.
Proof.
  intros Ht Hm. unfold isFingerClosed.
  destruct (item_in_range l tip Ht) as [p ->].
  destruct (item_in_range l mcp Hm) as [q ->].
  simpl. eauto.
Qed.

Lemma fingerOpen_in_range (l : LandmarkList) (mcp tip : nat) :
  (mcp < length l)%nat -> (tip < length l)%nat ->
  exists b, fingerOpen l mcp tip = Ok b.
Proof.
  intros Hm Ht. unfold fingerOpen.
  destruct (item_in_range l mcp Hm) as [q ->].
  destruct (item_in_range l tip Ht) as [p ->].
  simpl. eauto.
Qed.

Lemma sumLoop_in_range (l : LandmarkList) (idxs : list nat) :
  (forall i, In i idxs -> (i < length l)%nat) ->
  forall sumX sumY, exists sums, sumLoop l idxs sumX sumY = Ok sums.
Proof.
  induction idxs as [|i idxs IH]; intros Hin sumX sumY; simpl.
  - eauto.
  - destruct (item_in_range l i) as [p ->]; [apply Hin; simpl; auto|].
    simpl. apply IH. intros j Hj. apply Hin. simpl. auto.
Qed.

Lemma mcpIndices_below_21 (i : nat) : In i mcpIndices -> (i < 21)%nat.
Proof.
  unfold mcpIndices, LANDMARK.WRIST, LANDMARK.INDEX_MCP, LANDMARK.MIDDLE_MCP,
    LANDMARK.RING_MCP, LANDMARK.PINKY_MCP.
  simpl. intros H. repeat (destruct H as [<-|H]; [lia|]). contradiction.
Qed.

Lemma isFist_total (f : option LandmarkList) : exists b, isFist f = Ok b.
Proof.
  destruct f as [l|]; simpl; [|eauto].
  destruct (Nat.ltb_spec (length l) 21) as [H|H]; [eauto|].
  destruct (isFingerClosed_in_range l LANDMARK.INDEX_TIP LANDMARK.INDEX_MCP)
    as [b1 ->]; [unfold LANDMARK.INDEX_TIP; lia|unfold LANDMARK.INDEX_MCP; lia|].
  destruct (isFingerClosed_in_range l LANDMARK.MIDDLE_TIP LANDMARK.MIDDLE_MCP)
    as [b2 ->]; [unfold LANDMARK.MIDDLE_TIP; lia|unfold LANDMARK.MIDDLE_MCP; lia|].
  destruct (isFingerClosed_in_range l LANDMARK.RING_TIP LANDMARK.RING_MCP)
    as [b3 ->]; [unfold LANDMARK.RING_TIP; lia|unfold LANDMARK.RING_MCP; lia|].
  destruct (isFingerClosed_in_range l LANDMARK.PINKY_TIP LANDMARK.PINKY_MCP)
    as [b4 ->]; [unfold LANDMARK.PINKY_TIP; lia|unfold LANDMARK.PINKY_MCP; lia|].
  simpl. eauto.
Qed.

Lemma isPalmOpen_total (f : option LandmarkList) : exists b, isPalmOpen f = Ok b.
Proof.
  destruct f as [l|]; simpl; [|eauto].
  destruct (Nat.ltb_spec (length l) 21) as [H|H]; [eauto|].
  destruct (fingerOpen_in_range l LANDMARK.INDEX_MCP LANDMARK.INDEX_TIP)
    as [b1 ->]; [unfold LANDMARK.INDEX_MCP; lia|unfold LANDMARK.INDEX_TIP; lia|].
  destruct (fingerOpen_in_range l LANDMARK.MIDDLE_MCP LANDMARK.MIDDLE_TIP)
    as [b2 ->]; [unfold LANDMARK.MIDDLE_MCP; lia|unfold LANDMARK.MIDDLE_TIP; lia|].
  destruct (fingerOpen_in_range l LANDMARK.RING_MCP LANDMARK.RING_TIP)
    as [b3 ->]; [unfold LANDMARK.RING_MCP; lia|unfold LANDMARK.RING_TIP; lia|].
  destruct (fingerOpen_in_range l LANDMARK.PINKY_MCP LANDMARK.PINKY_TIP)
    as [b4 ->]; [unfold LANDMARK.PINKY_MCP; lia|unfold LANDMARK.PINKY_TIP; lia|].
  cbn [rbind]. eauto.
Qed.

Lemma getPalmCenter_total (f : option LandmarkList) :
  exists c, getPalmCenter f = Ok c.
Proof.
  unfold getPalmCenter. destruct f as [l|]; [|eauto].
  destruct (Nat.ltb_spec (length l) 21) as [H|H]; [eauto|].
  destruct (sumLoop_in_range l mcpIndices) with (sumX := 0) (sumY := 0)
    as [sums ->].
  - intros i Hi. apply mcpIndices_below_21 in Hi. lia.
  - cbn [rbind]. eauto.
Qed.

Lemma detectGesture_total (f prev : option LandmarkList) :
  exists g, detectGesture f prev = Ok g.
Proof.
  unfold detectGesture. destruct (noHand f); [eauto|].
  destruct (isFist_total f) as [b ->]. cbn [rbind].
  destruct b; [eauto|].
  destruct (negb (noHand prev)); [|eauto].
  destruct (getPalmCenter_total f) as [c ->].
  destruct (getPalmCenter_total prev) as [p ->]. cbn [rbind].
  destruct (getSwipeDirection c p) as [[| |]|]; eauto.
Qed.

(** ** The assertions of the test suite, replayed on the embedding *)

Example test_isFist :
  isFist (Some Fixtures.createFistLandmarks) = Ok true /\
  isFist (Some Fixtures.createOpenPalmLandmarks) = Ok false /\
  isFist None = Ok false /\ isFist (Some []) = Ok false /\
  isFist (Some (firstn 10 (Fixtures.createLandmarks (fun _ => None))))
  = Ok false.
Proof. repeat split. Qed.

Example test_isPalmOpen :
  isPalmOpen (Some Fixtures.createOpenPalmLandmarks) = Ok true /\
  isPalmOpen (Some Fixtures.createFistLandmarks) = Ok false /\
  isPalmOpen None = Ok false /\ isPalmOpen (Some []) = Ok false.
Proof. repeat split. Qed.

Example test_getPalmCenter :
  exists c,
    getPalmCenter
      (Some (Fixtures.createLandmarks
               (fun i => match i with
                         | 0 => Some (Fixtures.pt 0.5 0.8)
                         | 5 => Some (Fixtures.pt 0.3 0.6)
                         | 9 => Some (Fixtures.pt 0.5 0.6)
                         | 13 => Some (Fixtures.pt 0.7 0.6)
                         | 17 => Some (Fixtures.pt 0.9 0.6)
                         | _ => None
                         end%nat))) = Ok c /\
    x c == 0.58 /\ y c == 0.64.
Proof. eexists. split; [vm_compute; reflexivity|]. split; reflexivity. Qed.

Example test_getSwipeDirection :
  getSwipeDirection (Fixtures.pt 0.5 0.5) (Fixtures.pt 0.3 0.5) = Some left /\
  getSwipeDirection (Fixtures.pt 0.3 0.5) (Fixtures.pt 0.5 0.5) = Some right /\
  getSwipeDirection (Fixtures.pt 0.51 0.5) (Fixtures.pt 0.5 0.5) = None /\
  getSwipeDirection (Fixtures.pt 0.5 0.3) (Fixtures.pt 0.5 0.5) = Some up.
Proof. repeat split. Qed.

Example test_detectGesture :
  detectGesture None None = Ok none /\
  detectGesture (Some []) None = Ok none /\
  detectGesture (Some Fixtures.createFistLandmarks) None = Ok fist /\
  detectGesture (Some Fixtures.movedRight)
                (Some Fixtures.createOpenPalmLandmarks) = Ok swipe_left /\
  detectGesture (Some Fixtures.movedLeft)
                (Some Fixtures.createOpenPalmLandmarks) = Ok swipe_right /\
  detectGesture (Some Fixtures.movedUp)
                (Some Fixtures.createOpenPalmLandmarks) = Ok swipe_up.
Proof. repeat split. Qed.

(** The tracker on the three scenarios of the specification: small upward
    steps adding up, a reversal from left to right, and ten idle frames. *)
Example test_track_up_once :
  let step := CallTrack (Fixtures.pt 0.5 0.47) (Fixtures.pt 0.5 0.5) in
  fst (perform step (stateAfter [])) = None /\
  fst (perform step (stateAfter [step])) = None /\
  fst (perform step (stateAfter [step; step])) = Some up /\
  stateAfter [step; step; step] = SwipeTracker.new.
Proof. repeat split. Qed.

Example test_track_reversal :
  let s := stateAfter [CallTrack (Fixtures.pt 0.54 0.5) (Fixtures.pt 0.5 0.5);
                       CallTrack (Fixtures.pt 0.52 0.5) (Fixtures.pt 0.54 0.5)] in
  SwipeTracker.accumulatedX s == - 0.02 /\
  SwipeTracker.frameCount s = 1%nat /\
  SwipeTracker.lastDirection s = Some right.
Proof. repeat split. Qed.

Example test_track_stale :
  let idle := CallTrack (Fixtures.pt 0.501 0.5) (Fixtures.pt 0.5 0.5) in
  SwipeTracker.frameCount (stateAfter (repeat idle 9)) = 9%nat /\
  SwipeTracker.accumulatedX (stateAfter (repeat idle 9)) == 0.009 /\
  perform idle (stateAfter (repeat idle 9)) = (None, SwipeTracker.new).
Proof. repeat split. Qed.

(** ** Invalid frames *)

Lemma item_firstn (l : LandmarkList) (i : nat) :
  (i < 21)%nat -> item (firstn 21 l) i = item l i.
Proof.
  intro H. unfold item, LandmarkList, Landmark in *.
  rewrite nth_error_firstn. apply Nat.ltb_lt in H. rewrite H. reflexivity.
Qed.

Lemma length_test_firstn (l : LandmarkList) :
  (length (firstn 21 l) <? 21)%nat = (length l <? 21)%nat.
Proof.
  rewrite length_firstn. destruct (Nat.ltb_spec (length l) 21) as [H|H].
  - rewrite Nat.min_r by lia. apply Nat.ltb_lt. exact H.
  - rewrite Nat.min_l by lia. reflexivity.
Qed.

Lemma isFist_firstn (f : option LandmarkList) :
  isFist f = isFist (option_map (firstn 21) f).
Proof.
  destruct f as [l|]; [|reflexivity]. cbn [option_map].
  unfold isFist, isFingerClosed. rewrite length_test_firstn.
  rewrite !item_firstn by (cbv; lia). reflexivity.
Qed.

Lemma isPalmOpen_firstn (f : option LandmarkList) :
  isPalmOpen f = isPalmOpen (option_map (firstn 21) f).
Proof.
  destruct f as [l|]; [|reflexivity]. cbn [option_map].
  unfold isPalmOpen, fingerOpen. rewrite length_test_firstn.
  rewrite !item_firstn by (cbv; lia). reflexivity.
Qed.

Lemma getPalmCenter_firstn (f : option LandmarkList) :
  getPalmCenter f = getPalmCenter (option_map (firstn 21) f).
Proof.
  destruct f as [l|]; [|reflexivity]. cbn [option_map].
  unfold getPalmCenter, mcpIndices. rewrite length_test_firstn.
  cbn [sumLoop]. rewrite !item_firstn by (cbv; lia). reflexivity.
Qed.

Lemma noHand_firstn (f : option LandmarkList) :
  noHand f = noHand (option_map (firstn 21) f).
Proof.
  destruct f as [l|]; [|reflexivity]. cbn [option_map noHand].
  symmetry. apply length_test_firstn.
Qed.

Lemma detectGesture_firstn (f prev : option LandmarkList) :
  detectGesture f prev =
  detectGesture (option_map (firstn 21) f) (option_map (firstn 21) prev).
Proof.
  unfold detectGesture.
  rewrite <- (noHand_firstn f), <- (noHand_firstn prev),
    <- (isFist_firstn f), <- (getPalmCenter_firstn f),
    <- (getPalmCenter_firstn prev).
  reflexivity.
Qed.

(** C2, as amended.  A frame that is [null] or has fewer than 21 points is
    "no hand" everywhere: [isFist] and [isPalmOpen] answer [false],
    [getPalmCenter] answers the origin and [detectGesture] answers ['none'];
    no frame at all, of any length, makes one of the four raise; and a
    frame longer than 21 points is classified from its first 21 points:
    each of the four answers on a frame what it answers on the frame cut
    after its 21st point. *)
Theorem short_frame_is_no_hand (f prev : option LandmarkList) :
  ((f = None \/ exists l, f = Some l /\ (length l < 21)%nat) ->
   isFist f = Ok false /\
   isPalmOpen f = Ok false /\
   getPalmCenter f = Ok (mkPoint 0 0 None) /\
   detectGesture f prev = Ok none) /\
  (exists b o c g,
     isFist f = Ok b /\ isPalmOpen f = Ok o /\
     getPalmCenter f = Ok c /\ detectGesture f prev = Ok g) /\
  (isFist f = isFist (option_map (firstn 21) f) /\
   isPalmOpen f = isPalmOpen (option_map (firstn 21) f) /\
   getPalmCenter f = getPalmCenter (option_map (firstn 21) f) /\
   detectGesture f prev =
   detectGesture (option_map (firstn 21) f) (option_map (firstn 21) prev)).
Proof.
  split; [|split].
  - intro H. apply noHand_true in H. unfold detectGesture. rewrite H.
    destruct f as [l|]; simpl in H.
    + unfold isFist, isPalmOpen, getPalmCenter. rewrite H. auto.
    + auto.
  - destruct (isFist_total f) as [b Hb].
    destruct (isPalmOpen_total f) as [o Ho].
    destruct (getPalmCenter_total f) as [c Hc].
    destruct (detectGesture_total f prev) as [g Hg].
    exists b, o, c, g. auto.
  - split; [apply isFist_firstn|]. split; [apply isPalmOpen_firstn|].
    split; [apply getPalmCenter_firstn|apply detectGesture_firstn].
Qed.

Lemma short_frame_is_no_hand_witness :
  let ten := firstn 10 (Fixtures.createLandmarks (fun _ => None)) in
  length ten = 10%nat /\
  isFist (Some ten) = Ok false /\
  isPalmOpen (Some ten) = Ok false /\
  getPalmCenter (Some ten) = Ok (mkPoint 0 0 None) /\
  detectGesture (Some ten) (Some Fixtures.createOpenPalmLandmarks) = Ok none.
Proof.
  split; [reflexivity|].
  apply (proj1 (short_frame_is_no_hand
                  (Some (firstn 10 (Fixtures.createLandmarks (fun _ => None))))
                  (Some Fixtures.createOpenPalmLandmarks))).
  right. eexists. split; [reflexivity|]. vm_compute. lia.
Defined.

(** C2, as stated, fails on a frame of 22 points: its length is not 21, and
    it is classified as a hand. *)
Lemma long_frame_is_a_hand :
  length longFist <> 21%nat /\
  isFist (Some longFist) = Ok true /\
  (exists c, getPalmCenter (Some longFist) = Ok c /\
             x c == 0.54 /\ y c == 0.56) /\
  detectGesture (Some longFist) None = Ok fist /\
  length longOpenPalm <> 21%nat /\
  isPalmOpen (Some longOpenPalm) = Ok true.
Proof.
  split; [vm_compute; congruence|].
  split; [reflexivity|].
  split; [eexists; split; [vm_compute; reflexivity|split; reflexivity]|].
  split; [reflexivity|].
  split; [vm_compute; congruence|reflexivity].
Qed.

(** ** Fist priority *)

(** C7.  A current frame on which [isFist] holds is dispatched as ['fist']
    whatever the previous frame is: absent, too short, or a hand whose
    palm centre lies far from the current one. *)
Theorem fist_has_priority (cur : LandmarkList) (prev : option LandmarkList) :
  isFist (Some cur) = Ok true ->
  detectGesture (Some cur) prev = Ok fist.
Proof.
  intro H. unfold detectGesture.
  destruct (noHand (Some cur)) eqn:E.
  - simpl in E. simpl in H. rewrite E in H. discriminate.
  - rewrite H. reflexivity.
Qed.

(** The fist fixture against the open-palm fixture: the palm centres alone
    read as an upward swipe, the dispatcher answers ['fist']. *)
Lemma fist_has_priority_witness :
  length Fixtures.createFistLandmarks = 21%nat /\
  (exists c p,
     getPalmCenter (Some Fixtures.createFistLandmarks) = Ok c /\
     getPalmCenter (Some Fixtures.createOpenPalmLandmarks) = Ok p /\
     getSwipeDirection c p = Some up) /\
  detectGesture (Some Fixtures.createFistLandmarks)
                (Some Fixtures.createOpenPalmLandmarks) = Ok fist /\
  detectGesture (Some Fixtures.createFistLandmarks) None = Ok fist.
Proof.
  split; [reflexivity|].
  split; [do 2 eexists; repeat split; vm_compute; reflexivity|].
  split; apply fist_has_priority; vm_compute; reflexivity.
Defined.

(** ** Fist and open palm overlap *)

Lemma gapBetween_closed (l : LandmarkList) (lo : Q) (tip mcp : nat) :
  gapBetween l lo FIST_THRESHOLD (tip, mcp) ->
  isFingerClosed l tip mcp = Ok true.
Proof.
  intros (pt & pm & Ht & Hm & _ & Hhi). simpl in Ht, Hm.
  unfold isFingerClosed, item. rewrite Ht, Hm. cbn [rbind].
  destruct (Qltb_spec (y pm - y pt) FIST_THRESHOLD); [reflexivity|contradiction].
Qed.

Lemma gapBetween_open (l : LandmarkList) (hi : Q) (tip mcp : nat) :
  gapBetween l OPEN_THRESHOLD hi (tip, mcp) ->
  fingerOpen l mcp tip = Ok true.
Proof.
  intros (pt & pm & Ht & Hm & Hlo & _). simpl in Ht, Hm.
  unfold fingerOpen, item. rewrite Ht, Hm. cbn [rbind].
  destruct (Qgtb_spec (y pm - y pt) OPEN_THRESHOLD); [reflexivity|contradiction].
Qed.

(** C10.  [isFist] and [isPalmOpen] are not mutually exclusive: some frame of
    21 points satisfies both, and so does every frame with a hand whose four
    non-thumb [mcp.y - tip.y] gaps lie strictly between 0.05 and 0.07. *)
Theorem fist_and_open_palm_overlap :
  (exists l, length l = 21%nat /\
             isFist (Some l) = Ok true /\ isPalmOpen (Some l) = Ok true) /\
  (forall l, (21 <= length l)%nat ->
             Forall (gapBetween l 0.05 0.07) nonThumbFingers ->
             isFist (Some l) = Ok true /\ isPalmOpen (Some l) = Ok true).
Proof.
  assert (Hall : forall l, (21 <= length l)%nat ->
             Forall (gapBetween l 0.05 0.07) nonThumbFingers ->
             isFist (Some l) = Ok true /\ isPalmOpen (Some l) = Ok true).
  { intros l Hlen Hgap. unfold nonThumbFingers in Hgap.
    inversion_clear Hgap as [|? ? Hi Hgap1].
    inversion_clear Hgap1 as [|? ? Hm Hgap2].
    inversion_clear Hgap2 as [|? ? Hr Hgap3].
    inversion_clear Hgap3 as [|? ? Hp _].
    unfold isFist, isPalmOpen. rewrite (noHand_false l Hlen).
    rewrite (gapBetween_closed _ _ _ _ Hi), (gapBetween_closed _ _ _ _ Hm),
      (gapBetween_closed _ _ _ _ Hr), (gapBetween_closed _ _ _ _ Hp).
    rewrite (gapBetween_open _ _ _ _ Hi), (gapBetween_open _ _ _ _ Hm),
      (gapBetween_open _ _ _ _ Hr), (gapBetween_open _ _ _ _ Hp).
    split; reflexivity. }
  split; [|exact Hall].
  exists halfCurled. split; [reflexivity|].
  apply Hall.
  - vm_compute. lia.
  - unfold nonThumbFingers.
    repeat (apply Forall_cons;
            [do 2 eexists;
             split; [reflexivity|split; [reflexivity|split; reflexivity]]|]).
    apply Forall_nil.
Qed.

(** The half-curled hand: every gap is 0.06. *)
Lemma fist_and_open_palm_overlap_witness :
  length halfCurled = 21%nat /\
  isFist (Some halfCurled) = Ok true /\ isPalmOpen (Some halfCurled) = Ok true.
Proof.
  split; [reflexivity|].
  apply (proj2 fist_and_open_palm_overlap halfCurled).
  - vm_compute. lia.
  - unfold nonThumbFingers.
    repeat (apply Forall_cons;
            [do 2 eexists;
             split; [reflexivity|split; [reflexivity|split; reflexivity]]|]).
    apply Forall_nil.
Defined.

(** ** What the palm centre reads *)

Lemma sumLoop_sameXY (l1 l2 : LandmarkList) (idxs : list nat) :
  (forall i, In i idxs -> sameXY l1 l2 i) ->
  forall sx1 sy1 sx2 sy2, sx1 == sx2 -> sy1 == sy2 ->
  exists s1 s2,
    sumLoop l1 idxs sx1 sy1 = Ok s1 /\ sumLoop l2 idxs sx2 sy2 = Ok s2 /\
    fst s1 == fst s2 /\ snd s1 == snd s2.
Proof.
  induction idxs as [|i idxs IH]; intros Hsame sx1 sy1 sx2 sy2 Hx Hy.
  - exists (sx1, sy1), (sx2, sy2). simpl. auto.
  - assert (Hi := Hsame i (or_introl eq_refl)). unfold sameXY in Hi.
    cbn [sumLoop]. unfold item.
    destruct (nth_error l1 i) as [p|]; [|contradiction].
    destruct (nth_error l2 i) as [q|]; [|contradiction].
    destruct Hi as [Hpx Hpy]. cbn [rbind].
    apply IH.
    + intros j Hj. apply Hsame. right. exact Hj.
    + rewrite Hx, Hpx. reflexivity.
    + rewrite Hy, Hpy. reflexivity.
Qed.

Lemma sumLoop_identicalXY (l1 l2 : LandmarkList) (idxs : list nat) :
  (forall i, In i idxs -> identicalXY l1 l2 i) ->
  forall sx sy, sumLoop l1 idxs sx sy = sumLoop l2 idxs sx sy.
Proof.
  induction idxs as [|i idxs IH]; intros Hsame sx sy.
  - reflexivity.
  - assert (Hi := Hsame i (or_introl eq_refl)). unfold identicalXY in Hi.
    cbn [sumLoop]. unfold item.
    destruct (nth_error l1 i) as [p|]; [|contradiction].
    destruct (nth_error l2 i) as [q|]; [|contradiction].
    destruct Hi as [Hpx Hpy]. cbn [rbind]. rewrite Hpx, Hpy.
    apply IH. intros j Hj. apply Hsame. right. exact Hj.
Qed.

(** C9.  Two frames with a hand that agree on [x] and [y] at the wrist and
    the four MCP joints (indices 0, 5, 9, 13, 17) have the same palm centre,
    whatever their [z] coordinates and their other sixteen landmarks are:
    equal numbers give equal numbers, and identical values give the identical
    result. *)
Theorem getPalmCenter_reads_palm_joints_only (l1 l2 : LandmarkList) :
  (21 <= length l1)%nat -> (21 <= length l2)%nat ->
  ((forall i, In i [0; 5; 9; 13; 17]%nat -> sameXY l1 l2 i) ->
   samePoint (getPalmCenter (Some l1)) (getPalmCenter (Some l2))) /\
  ((forall i, In i [0; 5; 9; 13; 17]%nat -> identicalXY l1 l2 i) ->
   getPalmCenter (Some l1) = getPalmCenter (Some l2)).
Proof.
  intros H1 H2. unfold getPalmCenter.
  rewrite (noHand_false l1 H1), (noHand_false l2 H2). split; intro Hsame.
  - destruct (sumLoop_sameXY l1 l2 mcpIndices Hsame 0 0 0 0)
      as (s1 & s2 & -> & -> & Hx & Hy); try reflexivity.
    cbn [rbind samePoint x y z]. rewrite Hx, Hy.
    split; [reflexivity|split; reflexivity].
  - rewrite (sumLoop_identicalXY l1 l2 mcpIndices Hsame). reflexivity.
Qed.

(** The open-palm fixture against a copy with every finger joint, the thumb
    and all [z] values changed. *)
Lemma getPalmCenter_reads_palm_joints_only_witness :
  let other :=
    map (fun p => mkPoint (x p) (y p) (Some 0.3))
        (Fixtures.createLandmarks
           (Fixtures.hand (Fixtures.pt 0.5 0.8)
              (Fixtures.pt 0.4 0.6) (Fixtures.pt 0.1 0.9)
              (Fixtures.pt 0.5 0.55) (Fixtures.pt 0.2 0.9)
              (Fixtures.pt 0.6 0.6) (Fixtures.pt 0.3 0.9)
              (Fixtures.pt 0.7 0.65) (Fixtures.pt 0.4 0.9))) in
  nth_error other 8 <> nth_error Fixtures.createOpenPalmLandmarks 8 /\
  getPalmCenter (Some Fixtures.createOpenPalmLandmarks) =
  getPalmCenter (Some other).
Proof.
  split; [vm_compute; congruence|].
  apply getPalmCenter_reads_palm_joints_only.
  - vm_compute. lia.
  - vm_compute. lia.
  - intros i Hi. simpl in Hi.
    repeat (destruct Hi as [<-|Hi]; [split; reflexivity|]). contradiction.
Defined.

(** ** Single-step direction *)

(** C3, as amended.  [getSwipeDirection] checks the vertical threshold alone
    and first: ['up'] exactly when [dy < -0.015], whatever [dx] is; otherwise
    ['left'] exactly when [dx > 0.015], ['right'] exactly when [dx < -0.015],
    and no classification exactly when neither threshold is crossed. *)
Theorem getSwipeDirection_rules (c p : Point) :
  let dx := x c - x p in
  let dy := y c - y p in
  (getSwipeDirection c p = Some up <-> dy < - 0.015) /\
  (getSwipeDirection c p = Some left <-> ~ dy < - 0.015 /\ 0.015 < dx) /\
  (getSwipeDirection c p = Some right <-> ~ dy < - 0.015 /\ dx < - 0.015) /\
  (getSwipeDirection c p = None <->
   ~ dy < - 0.015 /\ ~ 0.015 < dx /\ ~ dx < - 0.015).
Proof.
  intros dx dy. unfold getSwipeDirection. fold dx dy.
  destruct (Qltb_spec dy (- SWIPE_FRAME_THRESHOLD)) as [Hy|Hy];
    [|destruct (Qgtb_spec dx SWIPE_FRAME_THRESHOLD) as [Hl|Hl];
      [|destruct (Qltb_spec dx (- SWIPE_FRAME_THRESHOLD)) as [Hr|Hr]]];
    unfold SWIPE_FRAME_THRESHOLD in *;
    repeat split; intros;
    try reflexivity; try discriminate; try tauto; lra.
Qed.

(** C3, as stated, fails for a step of [dx = 1], [dy = -0.25]: the vertical
    part is not the dominant one (the tracker's step 2 reads ['left']), yet
    the single-step direction is ['up']. *)
Lemma getSwipeDirection_up_without_dominance :
  let c := Fixtures.pt 1 0.25 in
  let p := Fixtures.pt 0 0.5 in
  getSwipeDirection c p = Some up /\
  ~ Qabs (y c - y p) > Qabs (x c - x p) /\
  SwipeTracker.dominantDirection (x c - x p) (y c - y p) = Some left.
Proof.
  split; [reflexivity|]. split; [|reflexivity].
  vm_compute. discriminate.
Qed.

(** ** Two-tier detection *)

(** C1, as amended.  On a current frame with a hand that is not a fist and a
    previous frame with a hand, [detectGesture] reports the single-step
    direction of the palm centre, whichever it is: ['swipe-up'],
    ['swipe-left'] or ['swipe-right'], and ['none'] when there is none.  The
    caller steps the tracker only in that last case and leaves it untouched
    otherwise. *)
Theorem detectGesture_reports_single_step (cur prev : LandmarkList) :
  (21 <= length cur)%nat -> (21 <= length prev)%nat ->
  isFist (Some cur) = Ok false ->
  exists c p,
    getPalmCenter (Some cur) = Ok c /\
    getPalmCenter (Some prev) = Ok p /\
    detectGesture (Some cur) (Some prev) = Ok (swipeOf (getSwipeDirection c p)) /\
    forall tracker,
      frameGesture cur (Some prev) tracker =
      match getSwipeDirection c p with
      | Some d => Ok (swipeOf (Some d), tracker)
      | None =>
        Ok (swipeOf (fst (SwipeTracker.track c p tracker)),
            snd (SwipeTracker.track c p tracker))
      end.
Proof.
  intros Hcur Hprev Hfist.
  destruct (getPalmCenter_total (Some cur)) as [c Hc].
  destruct (getPalmCenter_total (Some prev)) as [p Hp].
  exists c, p. split; [exact Hc|]. split; [exact Hp|].
  assert (Hd : detectGesture (Some cur) (Some prev)
               = Ok (swipeOf (getSwipeDirection c p))).
  { unfold detectGesture, noHand.
    rewrite (noHand_false cur Hcur), (noHand_false prev Hprev), Hfist, Hc, Hp.
    cbn [rbind negb].
    destruct (getSwipeDirection c p) as [[| |]|]; reflexivity. }
  split; [exact Hd|].
  intro tracker. unfold frameGesture. rewrite Hd, Hc, Hp. cbn [rbind].
  destruct (getSwipeDirection c p) as [[| |]|]; cbn [swipeOf]; try reflexivity.
  destruct (SwipeTracker.track c p tracker) as [[[| |]|] tracker'];
    reflexivity.
Qed.

(** The suite's "swipe-right" pair: the single step is reported directly and
    the tracker is not stepped. *)
Lemma detectGesture_reports_single_step_witness :
  detectGesture (Some Fixtures.movedLeft)
                (Some Fixtures.createOpenPalmLandmarks) = Ok swipe_right /\
  frameGesture Fixtures.movedLeft (Some Fixtures.createOpenPalmLandmarks)
               SwipeTracker.new = Ok (swipe_right, SwipeTracker.new).
Proof.
  destruct (detectGesture_reports_single_step
              Fixtures.movedLeft Fixtures.createOpenPalmLandmarks)
    as (c & p & Hc & Hp & Hd & Hf).
  - vm_compute. lia.
  - vm_compute. lia.
  - vm_compute. reflexivity.
  - vm_compute in Hc. vm_compute in Hp.
    injection Hc as <-. injection Hp as <-.
    split; [exact Hd|exact (Hf SwipeTracker.new)].
Defined.

(** C1, as stated, fails on the suite's "swipe-left" pair: both frames have
    21 points, the current one is not a fist, and the per-frame check itself
    answers ['swipe-left']. *)
Lemma detectGesture_reports_swipe_left :
  length Fixtures.movedRight = 21%nat /\
  length Fixtures.createOpenPalmLandmarks = 21%nat /\
  isFist (Some Fixtures.movedRight) = Ok false /\
  detectGesture (Some Fixtures.movedRight)
                (Some Fixtures.createOpenPalmLandmarks) = Ok swipe_left.
Proof. repeat split. Qed.

(** ** The tracker *)

Section Tracker.
Import SwipeTracker.

(** [track], with the mutations of [this] carried out. *)
Lemma track_unfold (cur prev : Point) (s : t) :
  let dx := x cur - x prev in
  let dy := y cur - y prev in
  let d := dominantDirection dx dy in
  let changed := directionChanged (lastDirection s) d in
  let ax := (if changed then 0 else accumulatedX s) + dx in
  let ay := (if changed then 0 else accumulatedY s) + dy in
  let n := S (if changed then 0%nat else frameCount s) in
  track cur prev s =
  if ay <? - SWIPE_THRESHOLD then (Some up, new)
  else if Qabs ax >? SWIPE_THRESHOLD then
    (Some (if ax >? 0 then left else right), new)
  else if (maxFrames <=? n)%nat then (None, new)
  else (None, mk ax ay n d).
Proof.
  intros dx dy d changed ax ay n.
  unfold track. fold dx dy d.
  unfold bind, get, when. fold changed.
  subst ax ay n. destruct changed;
    cbv [reset bind modify ret set_accumulatedX set_accumulatedY
         set_frameCount set_lastDirection accumulatedX accumulatedY
         frameCount lastDirection];
    destruct s as [sx sy sn sl];
    match goal with
    | |- context [?a <? - SWIPE_THRESHOLD] =>
      destruct (a <? - SWIPE_THRESHOLD); [reflexivity|]
    end;
    match goal with
    | |- context [Qabs ?a >? SWIPE_THRESHOLD] =>
      destruct (Qabs a >? SWIPE_THRESHOLD); [reflexivity|]
    end;
    match goal with
    | |- context [(maxFrames <=? ?a)%nat] =>
      destruct (maxFrames <=? a)%nat; reflexivity
    end.
Qed.

Lemma instantaneous_iff (dx dy : Q) (d : option Direction) :
  TrackSpec.instantaneous dx dy d <-> dominantDirection dx dy = d.
Proof.
  unfold dominantDirection, TrackSpec.upward. split.
  - intros [Hu|Hn Hl|Hn Hr|Hn Hl Hr]; unfold TrackSpec.upward in *;
      destruct (Qgtb_spec (Qabs dy) (Qabs dx));
      destruct (Qltb_spec dy 0); cbn [andb]; try reflexivity;
      try (exfalso; tauto);
      destruct (Qgtb_spec dx 0); try reflexivity; try contradiction;
      destruct (Qltb_spec dx 0); try reflexivity; try contradiction;
      exfalso; lra.
  - intros <-.
    destruct (Qgtb_spec (Qabs dy) (Qabs dx));
      destruct (Qltb_spec dy 0); cbn [andb];
      try (apply TrackSpec.inst_up; unfold TrackSpec.upward; tauto);
      (destruct (Qgtb_spec dx 0);
       [apply TrackSpec.inst_left; unfold TrackSpec.upward; tauto|]);
      (destruct (Qltb_spec dx 0);
       [apply TrackSpec.inst_right; unfold TrackSpec.upward; tauto|]);
      apply TrackSpec.inst_none; unfold TrackSpec.upward; tauto.
Qed.

Lemma reversal_iff (last d : option Direction) :
  TrackSpec.reversal last d <-> directionChanged last d = true.
Proof.
  unfold TrackSpec.reversal, directionChanged. split.
  - intros (l & c & -> & -> & Hne).
    destruct (Direction_eqb_spec c l); [contradiction|reflexivity].
  - destruct last as [l|]; [|discriminate].
    destruct d as [c|]; [|discriminate].
    destruct (Direction_eqb_spec c l); [discriminate|].
    intros _. exists l, c. auto.
Qed.

Lemma startsFrom_iff (s : t) (d : option Direction) (ax ay : Q) (n : nat) :
  TrackSpec.startsFrom s d ax ay n <->
  (ax, ay, n) =
  if directionChanged (lastDirection s) d then (0, 0, 0%nat)
  else (accumulatedX s, accumulatedY s, frameCount s).
Proof.
  split.
  - intros [H|H].
    + apply reversal_iff in H. rewrite H. reflexivity.
    + destruct (directionChanged (lastDirection s) d) eqn:E; [|reflexivity].
      apply reversal_iff in E. contradiction.
  - destruct (directionChanged (lastDirection s) d) eqn:E;
      intro H; injection H as -> -> ->.
    + apply TrackSpec.from_zero. apply reversal_iff. exact E.
    + apply TrackSpec.from_state. rewrite reversal_iff. congruence.
Qed.

Lemma outcome_iff (ax ay : Q) (n : nat) (d r : option Direction) (s' : t) :
  TrackSpec.outcome ax ay n d r s' <->
  (r, s') =
  if ay <? - SWIPE_THRESHOLD then (Some up, new)
  else if Qabs ax >? SWIPE_THRESHOLD then
    (Some (if ax >? 0 then left else right), new)
  else if (maxFrames <=? n)%nat then (None, new)
  else (None, mk ax ay n d).
Proof.
  unfold maxFrames.
  destruct (Qltb_spec ay (- SWIPE_THRESHOLD)) as [Hy|Hy];
    [|destruct (Qgtb_spec (Qabs ax) SWIPE_THRESHOLD) as [Hx|Hx];
      [destruct (Qgtb_spec ax 0) as [Hp|Hp]
      |destruct (Nat.leb_spec 10 n) as [Hn|Hn]]];
    unfold SWIPE_THRESHOLD in *;
    (split;
     [intros [H1|H1 H2 H3|H1 H2 H3|H1 H2 H3|H1 H2 H3];
      try reflexivity; try contradiction; exfalso; (lra || lia)
     |intro H; injection H as -> ->]).
  - apply TrackSpec.out_up. lra.
  - apply TrackSpec.out_left; lra.
  - apply TrackSpec.out_right; lra.
  - apply TrackSpec.out_stale; (lra || lia).
  - apply TrackSpec.out_accumulating; (lra || lia).
Qed.

End Tracker.

(** C4.  [SwipeTracker.track] computes exactly the step algorithm of the
    specification: the pairs of returned value and next state it produces are
    those the step relation allows, for every state and every pair of palm
    centres. *)
Theorem track_follows_step_algorithm
        (s : SwipeTracker.t) (cur prev : Point)
        (r : option Direction) (s' : SwipeTracker.t) :
  SwipeTracker.track cur prev s = (r, s') <-> TrackSpec.step s cur prev r s'.
Proof.
  rewrite track_unfold. cbv zeta. split.
  - intro H.
    apply TrackSpec.step_intro with
      (d := SwipeTracker.dominantDirection (x cur - x prev) (y cur - y prev))
      (ax := if SwipeTracker.directionChanged (SwipeTracker.lastDirection s)
                  (SwipeTracker.dominantDirection
                     (x cur - x prev) (y cur - y prev))
             then 0 else SwipeTracker.accumulatedX s)
      (ay := if SwipeTracker.directionChanged (SwipeTracker.lastDirection s)
                  (SwipeTracker.dominantDirection
                     (x cur - x prev) (y cur - y prev))
             then 0 else SwipeTracker.accumulatedY s)
      (n := if SwipeTracker.directionChanged (SwipeTracker.lastDirection s)
                 (SwipeTracker.dominantDirection
                    (x cur - x prev) (y cur - y prev))
            then 0%nat else SwipeTracker.frameCount s).
    + apply instantaneous_iff. reflexivity.
    + apply startsFrom_iff.
      destruct (SwipeTracker.directionChanged _ _); reflexivity.
    + apply outcome_iff. symmetry. exact H.
  - intros [d ax ay n r0 s0 dx dy Hd Hs Ho].
    apply instantaneous_iff in Hd. apply startsFrom_iff in Hs.
    apply outcome_iff in Ho. subst dx dy. rewrite Hd.
    destruct (SwipeTracker.directionChanged (SwipeTracker.lastDirection s) d);
      injection Hs as -> -> ->; symmetry; exact Ho.
Qed.

(** ** Reachable states of the tracker *)

Lemma withinBounds_new : withinBounds SwipeTracker.new.
Proof.
  unfold withinBounds. simpl. split; [lia|]. split; discriminate.
Qed.

Lemma track_result (cur prev : Point) (s : SwipeTracker.t) :
  withinBounds (snd (SwipeTracker.track cur prev s)) /\
  (forall d, fst (SwipeTracker.track cur prev s) = Some d ->
             snd (SwipeTracker.track cur prev s) = SwipeTracker.new).
Proof.
  rewrite track_unfold. cbv zeta.
  set (ax := _ + (x cur - x prev)). set (ay := _ + (y cur - y prev)).
  set (n := S _). unfold SwipeTracker.maxFrames.
  destruct (Qltb_spec ay (- SWIPE_THRESHOLD)) as [Hy|Hy];
    [|destruct (Qgtb_spec (Qabs ax) SWIPE_THRESHOLD) as [Hx|Hx];
      [|destruct (Nat.leb_spec 10 n) as [Hn|Hn]]];
    cbn [fst snd]; (split; [|intros d Hd; (reflexivity || discriminate)]);
    try apply withinBounds_new.
  unfold withinBounds, SWIPE_THRESHOLD in *.
  cbn [SwipeTracker.frameCount SwipeTracker.accumulatedX
       SwipeTracker.accumulatedY].
  split; [lia|]. split; lra.
Qed.

Lemma stateAfter_snoc (calls : list TrackerCall) (c : TrackerCall) :
  stateAfter (calls ++ [c]) = snd (perform c (stateAfter calls)).
Proof. unfold stateAfter. rewrite fold_left_app. reflexivity. Qed.

(** C8.  After every sequence of [track] and [reset] calls on a fresh
    tracker, [frameCount] is between 0 and 9, [|accumulatedX|] is at most
    0.06 and [accumulatedY] is at least -0.06; and a further [track] that
    returns a direction leaves the sums and the count at zero and
    [lastDirection] cleared. *)
Theorem tracker_state_invariant (calls : list TrackerCall) :
  let s := stateAfter calls in
  (0 <= SwipeTracker.frameCount s <= 9)%nat /\
  Qabs (SwipeTracker.accumulatedX s) <= 0.06 /\
  - 0.06 <= SwipeTracker.accumulatedY s /\
  (forall cur prev d,
     fst (SwipeTracker.track cur prev s) = Some d ->
     snd (SwipeTracker.track cur prev s) = SwipeTracker.mk 0 0 0 None).
Proof.
  cbv zeta.
  assert (H : withinBounds (stateAfter calls)).
  { induction calls as [|c calls IH] using rev_ind.
    - exact withinBounds_new.
    - rewrite stateAfter_snoc. destruct c as [cur prev|].
      + apply track_result.
      + exact withinBounds_new. }
  destruct H as (Hn & Hx & Hy).
  split; [exact Hn|]. split; [exact Hx|]. split; [exact Hy|].
  intros cur prev d. apply track_result.
Qed.

(** Three upward steps of 0.03: the third one crosses the threshold. *)
Lemma tracker_state_invariant_witness :
  let step := CallTrack (Fixtures.pt 0.5 0.47) (Fixtures.pt 0.5 0.5) in
  SwipeTracker.frameCount (stateAfter [step; step]) = 2%nat /\
  SwipeTracker.accumulatedY (stateAfter [step; step]) == - 0.06 /\
  fst (perform step (stateAfter [step; step])) = Some up /\
  stateAfter [step; step; step] = SwipeTracker.new.
Proof.
  split; [reflexivity|]. split; [reflexivity|]. split; [reflexivity|].
  apply (tracker_state_invariant
           [CallTrack (Fixtures.pt 0.5 0.47) (Fixtures.pt 0.5 0.5);
            CallTrack (Fixtures.pt 0.5 0.47) (Fixtures.pt 0.5 0.5)])
    with (d := up).
  reflexivity.
Defined.

(** ** The debounce gate *)

Section Debounce.
Import GestureStateManager.

(** [processGesture], with the mutations of [this] carried out. *)
Lemma processGesture_unfold (gesture : Gesture) (now : Z) (s : t) :
  processGesture gesture now s =
  match gesture with
  | none => (None, mk none (gestureStartTime s) (cooldownMs s))
  | _ =>
    if Gesture_eqb gesture (lastGesture s) then (None, s)
    else if (now - gestureStartTime s <? cooldownMs s)%Z then (None, s)
    else (Some gesture, mk gesture now (cooldownMs s))
  end.
Proof.
  destruct s as [lg st cd].
  unfold processGesture, bind, get, when, modify, ret, set_lastGesture,
    set_gestureStartTime.
  cbn [lastGesture gestureStartTime cooldownMs].
  destruct gesture; cbn [Gesture_eqb negb andb];
    try (destruct lg; cbn [Gesture_eqb negb andb]; try reflexivity;
         destruct (now - st <? cd)%Z; reflexivity).
Qed.

Lemma emitted_state (gesture : Gesture) (now : Z) (s s1 : t) :
  processGesture gesture now s = (Some gesture, s1) ->
  gesture <> none /\ s1 = mk gesture now (cooldownMs s).
Proof.
  rewrite processGesture_unfold.
  destruct gesture; try discriminate;
    (destruct (Gesture_eqb _ (lastGesture s)); [discriminate|]);
    (destruct (_ <? _)%Z; [discriminate|]);
    intro H; injection H as <-; split; (discriminate || reflexivity).
Qed.

Lemma same_gesture_suppressed (gesture : Gesture) (now start cooldown : Z) :
  gesture <> none ->
  processGesture gesture now (mk gesture start cooldown) =
  (None, mk gesture start cooldown).
Proof.
  intro Hg. rewrite processGesture_unfold. cbn [lastGesture].
  destruct gesture; try contradiction; reflexivity.
Qed.

Lemma other_gesture_in_cooldown
      (gesture last : Gesture) (now start cooldown : Z) :
  gesture <> none -> (now - start < cooldown)%Z ->
  processGesture gesture now (mk last start cooldown) =
  (None, mk last start cooldown).
Proof.
  intros Hg Ht. rewrite processGesture_unfold.
  cbn [lastGesture gestureStartTime cooldownMs].
  apply Z.ltb_lt in Ht. rewrite Ht.
  destruct gesture; try contradiction;
    destruct (Gesture_eqb _ last); reflexivity.
Qed.

Lemma other_gesture_after_cooldown
      (gesture last : Gesture) (now start cooldown : Z) :
  gesture <> none -> gesture <> last -> (cooldown <= now - start)%Z ->
  processGesture gesture now (mk last start cooldown) =
  (Some gesture, mk gesture now cooldown).
Proof.
  intros Hg Hl Ht. rewrite processGesture_unfold.
  cbn [lastGesture gestureStartTime cooldownMs].
  apply Z.ltb_ge in Ht. rewrite Ht.
  destruct (Gesture_eqb_spec gesture last) as [E|_]; [contradiction|].
  destruct gesture; try contradiction; reflexivity.
Qed.

End Debounce.

(** C5.  Single shot and cooldown.  On a fresh gate, read at a clock value
    [t0] that is at least one cooldown past the clock's origin (as every
    [Date.now()] reading is for the cooldowns in use), a non-none gesture is
    emitted; the same gesture offered again is suppressed; a different
    non-none gesture within the cooldown window is suppressed as well; and
    after [reset()] the first gesture is emitted again at once. *)
Theorem debounce_single_shot
        (cooldown t0 t1 t2 t3 : Z) (g h : Gesture) :
  g <> none -> h <> none -> h <> g ->
  (cooldown <= t0)%Z -> (t2 - t0 < cooldown)%Z -> (t0 <= t3)%Z ->
  let s0 := GestureStateManager.new (Some cooldown) in
  let s1 := snd (GestureStateManager.processGesture g t0 s0) in
  fst (GestureStateManager.processGesture g t0 s0) = Some g /\
  GestureStateManager.processGesture g t1 s1 = (None, s1) /\
  GestureStateManager.processGesture h t2 s1 = (None, s1) /\
  fst (GestureStateManager.processGesture g t3
         (snd (GestureStateManager.reset s1))) = Some g.
Proof.
  intros Hg Hh Hhg Ht0 Ht2 Ht3 s0 s1.
  assert (E0 : GestureStateManager.processGesture g t0 s0
               = (Some g, GestureStateManager.mk g t0 cooldown)).
  { apply other_gesture_after_cooldown; [exact Hg|exact Hg|lia]. }
  subst s1. rewrite E0. cbn [fst snd].
  split; [reflexivity|].
  split; [apply same_gesture_suppressed; exact Hg|].
  split; [apply other_gesture_in_cooldown; assumption|].
  change (snd (GestureStateManager.reset (GestureStateManager.mk g t0 cooldown)))
    with (GestureStateManager.mk none 0 cooldown).
  rewrite other_gesture_after_cooldown; [reflexivity|exact Hg|exact Hg|lia].
Qed.

(** The suite's scenario: cooldown 500, ['fist'] twice, ['swipe-left'] one
    millisecond later, a reset, ['fist'] again. *)
Lemma debounce_single_shot_witness :
  let t0 := 1700000000000%Z in
  let s0 := GestureStateManager.new (Some 500%Z) in
  let s1 := snd (GestureStateManager.processGesture fist t0 s0) in
  fst (GestureStateManager.processGesture fist t0 s0) = Some fist /\
  GestureStateManager.processGesture fist (t0 + 1) s1 = (None, s1) /\
  GestureStateManager.processGesture swipe_left (t0 + 1) s1 = (None, s1) /\
  fst (GestureStateManager.processGesture fist (t0 + 2)
         (snd (GestureStateManager.reset s1))) = Some fist.
Proof.
  apply (debounce_single_shot 500 1700000000000 (1700000000000 + 1)
           (1700000000000 + 1) (1700000000000 + 2) fist swipe_left);
    (discriminate || lia).
Defined.

Lemma offerAll_same_gesture (g : Gesture) (start cooldown : Z) (times : list Z) :
  g <> none ->
  offerAll g times (GestureStateManager.mk g start cooldown) =
  (repeat None (length times), GestureStateManager.mk g start cooldown).
Proof.
  intro Hg. induction times as [|now rest IH].
  - reflexivity.
  - cbn [offerAll]. rewrite same_gesture_suppressed by exact Hg.
    rewrite IH. reflexivity.
Qed.

(** C6.  Latching.  Once [g] was emitted at [t0], a different non-none
    gesture offered at any reading at least one cooldown after [t0] is
    emitted and becomes the locked one; [g] itself is suppressed at every
    reading, however late and however often offered, the state staying as it
    is; and once a ['none'] was offered (at any reading) [lastGesture] is
    cleared and [g], past the cooldown, is emitted again. *)
Theorem debounce_latching
        (s s1 : GestureStateManager.t) (g : Gesture) (t0 : Z) :
  GestureStateManager.processGesture g t0 s = (Some g, s1) ->
  let cooldown := GestureStateManager.cooldownMs s in
  (forall h t, h <> none -> h <> g -> (cooldown <= t - t0)%Z ->
     GestureStateManager.processGesture h t s1 =
     (Some h, GestureStateManager.mk h t cooldown)) /\
  (forall times, offerAll g times s1 = (repeat None (length times), s1)) /\
  (forall tn t, (cooldown <= t - t0)%Z ->
     let s2 := snd (GestureStateManager.processGesture none tn s1) in
     fst (GestureStateManager.processGesture none tn s1) = None /\
     GestureStateManager.lastGesture s2 = none /\
     GestureStateManager.processGesture g t s2 =
     (Some g, GestureStateManager.mk g t cooldown)).
Proof.
  intros H cooldown. apply emitted_state in H. destruct H as [Hg ->].
  fold cooldown. split; [|split].
  - intros h t Hh Hhg Ht.
    apply other_gesture_after_cooldown; assumption.
  - intro times. apply offerAll_same_gesture. exact Hg.
  - intros tn t Ht. rewrite processGesture_unfold.
    cbn [fst snd GestureStateManager.lastGesture
         GestureStateManager.gestureStartTime GestureStateManager.cooldownMs].
    split; [reflexivity|]. split; [reflexivity|].
    apply other_gesture_after_cooldown; [exact Hg|exact Hg|exact Ht].
Qed.

(** Cooldown 600, ['fist'] emitted at [t0]: ['swipe-left'] is accepted 600
    ms later, ['fist'] is refused a minute and an hour later, and accepted
    after a ['none']. *)
Lemma debounce_latching_witness :
  let t0 := 1700000000000%Z in
  let s1 := GestureStateManager.mk fist t0 600 in
  GestureStateManager.processGesture swipe_left (t0 + 600) s1 =
    (Some swipe_left, GestureStateManager.mk swipe_left (t0 + 600) 600) /\
  offerAll fist [t0 + 60000; t0 + 3600000]%Z s1 = ([None; None], s1) /\
  GestureStateManager.processGesture fist (t0 + 60000)
    (snd (GestureStateManager.processGesture none (t0 + 1) s1)) =
    (Some fist, GestureStateManager.mk fist (t0 + 60000) 600).
Proof.
  destruct (debounce_latching
              (GestureStateManager.new (Some 600%Z))
              (GestureStateManager.mk fist 1700000000000 600)
              fist 1700000000000 eq_refl) as (Hother & Hsame & Hnone).
  split; [apply Hother; (discriminate || lia)|].
  split; [exact (Hsame [1700000000000 + 60000; 1700000000000 + 3600000]%Z)|].
  apply (Hnone (1700000000000 + 1)%Z (1700000000000 + 60000)%Z).
  cbn. lia.
Defined.

(** * Further properties of the code *)

(** ** Classification does not depend on where the hand is *)

Lemma Qltb_comp (a a' b b' : Q) :
  a == a' -> b == b' -> (a <? b) = (a' <? b').
Proof. intros Ha Hb. unfold Qltb. rewrite Ha, Hb. reflexivity. Qed.

Lemma item_translate (dx dy : Q) (l : LandmarkList) (i : nat) :
  item (translate dx dy l) i =
  match item l i with
  | Ok p => Ok (mkPoint (x p + dx) (y p + dy) (z p))
  | TypeError => TypeError
  end.
Proof.
  unfold item, translate, LandmarkList, Landmark in *.
  rewrite nth_error_map.
  destruct (nth_error l i); reflexivity.
Qed.

Lemma length_translate (dx dy : Q) (l : LandmarkList) :
  length (translate dx dy l) = length l.
Proof. unfold translate. apply length_map. Qed.

Lemma isFingerClosed_translate (dx dy : Q) (l : LandmarkList) (tip mcp : nat) :
  isFingerClosed (translate dx dy l) tip mcp = isFingerClosed l tip mcp.
Proof.
  unfold isFingerClosed. rewrite !item_translate.
  destruct (item l tip) as [p|]; [|reflexivity].
  destruct (item l mcp) as [q|]; [|reflexivity].
  cbn [rbind y]. f_equal. apply Qltb_comp; [ring|reflexivity].
Qed.

Lemma fingerOpen_translate (dx dy : Q) (l : LandmarkList) (mcp tip : nat) :
  fingerOpen (translate dx dy l) mcp tip = fingerOpen l mcp tip.
Proof.
  unfold fingerOpen. rewrite !item_translate.
  destruct (item l mcp) as [q|]; [|reflexivity].
  destruct (item l tip) as [p|]; [|reflexivity].
  cbn [rbind y]. f_equal. unfold Qgtb. apply Qltb_comp; [reflexivity|ring].
Qed.

Lemma isFist_translate (dx dy : Q) (l : LandmarkList) :
  isFist (Some (translate dx dy l)) = isFist (Some l).
Proof.
  unfold isFist. rewrite length_translate, !isFingerClosed_translate.
  reflexivity.
Qed.

Lemma isPalmOpen_translate (dx dy : Q) (l : LandmarkList) :
  isPalmOpen (Some (translate dx dy l)) = isPalmOpen (Some l).
Proof.
  unfold isPalmOpen. rewrite length_translate, !fingerOpen_translate.
  reflexivity.
Qed.

(** X1.  Moving every landmark of a frame by the same vector changes
    neither [isFist] nor [isPalmOpen]. *)
Theorem classifiers_ignore_position (dx dy : Q) (l : LandmarkList) :
  isFist (Some (translate dx dy l)) = isFist (Some l) /\
  isPalmOpen (Some (translate dx dy l)) = isPalmOpen (Some l).
Proof.
  split; [apply isFist_translate|apply isPalmOpen_translate].
Qed.

(** X4.  The palm centre stays in the frame: when the wrist and the four
    MCP joints of a frame with a hand have their [x] and [y] in [0,1], so
    has the palm centre. *)
Theorem palm_centre_in_unit_square (l : LandmarkList) :
  (21 <= length l)%nat ->
  (forall i p, In i [0; 5; 9; 13; 17]%nat -> nth_error l i = Some p ->
               0 <= x p <= 1 /\ 0 <= y p <= 1) ->
  exists c, getPalmCenter (Some l) = Ok c /\
            0 <= x c <= 1 /\ 0 <= y c <= 1.
Proof.
  intros H Hbox. unfold getPalmCenter. rewrite (noHand_false l H).
  unfold mcpIndices, LANDMARK.WRIST, LANDMARK.INDEX_MCP, LANDMARK.MIDDLE_MCP,
    LANDMARK.RING_MCP, LANDMARK.PINKY_MCP.
  cbn [sumLoop]. unfold item.
  destruct (nth_error l 0) as [p0|] eqn:E0;
    [|apply nth_error_None in E0; lia].
  destruct (nth_error l 5) as [p1|] eqn:E1;
    [|apply nth_error_None in E1; lia].
  destruct (nth_error l 9) as [p2|] eqn:E2;
    [|apply nth_error_None in E2; lia].
  destruct (nth_error l 13) as [p3|] eqn:E3;
    [|apply nth_error_None in E3; lia].
  destruct (nth_error l 17) as [p4|] eqn:E4;
    [|apply nth_error_None in E4; lia].
  cbn [rbind fst snd length].
  eexists. split; [reflexivity|]. cbn [x y].
  assert (B0 := Hbox 0%nat p0 ltac:(simpl; tauto) E0).
  assert (B1 := Hbox 5%nat p1 ltac:(simpl; tauto) E1).
  assert (B2 := Hbox 9%nat p2 ltac:(simpl; tauto) E2).
  assert (B3 := Hbox 13%nat p3 ltac:(simpl; tauto) E3).
  assert (B4 := Hbox 17%nat p4 ltac:(simpl; tauto) E4).
  change (inject_Z (Z.of_nat 5)) with 5.
  destruct B0 as [[? ?] [? ?]], B1 as [[? ?] [? ?]], B2 as [[? ?] [? ?]],
    B3 as [[? ?] [? ?]], B4 as [[? ?] [? ?]].
  clear Hbox E0 E1 E2 E3 E4 H.
  unfold Qdiv. change (/ 5) with (1 # 5).
  repeat split; lra.
Qed.

Lemma palm_centre_in_unit_square_witness :
  exists c, getPalmCenter (Some Fixtures.createOpenPalmLandmarks) = Ok c /\
            0 <= x c <= 1 /\ 0 <= y c <= 1.
Proof.
  apply palm_centre_in_unit_square.
  - vm_compute. lia.
  - intros i p Hi Hp. simpl in Hi.
    repeat (destruct Hi as [<-|Hi];
            [vm_compute in Hp; injection Hp as <-;
             vm_compute; intuition discriminate|]).
    contradiction.
Defined.

(** ** Where fist and open palm overlap *)

Lemma closed_and_open_gap (l : LandmarkList) (tip mcp : nat) :
  isFingerClosed l tip mcp = Ok true -> fingerOpen l mcp tip = Ok true ->
  gapBetween l 0.05 0.07 (tip, mcp).
Proof.
  unfold isFingerClosed, fingerOpen, item, gapBetween. cbn [fst snd].
  destruct (nth_error l tip) as [p|]; [|discriminate].
  destruct (nth_error l mcp) as [q|]; [|discriminate].
  cbn [rbind]. intros Hc Ho.
  exists p, q. split; [reflexivity|]. split; [reflexivity|].
  destruct (Qltb_spec (y q - y p) FIST_THRESHOLD); [|discriminate].
  destruct (Qgtb_spec (y q - y p) OPEN_THRESHOLD); [|discriminate].
  split; assumption.
Qed.

(** X5.  The overlap of C10 is the only one: when [isFist] and [isPalmOpen]
    both hold, all non-thumb fingers but at most one have their
    [mcp.y - tip.y] gap strictly between 0.05 and 0.07. *)
Theorem fist_and_open_palm_only_in_band (l : LandmarkList) :
  isFist (Some l) = Ok true -> isPalmOpen (Some l) = Ok true ->
  exists spared,
    In spared nonThumbFingers /\
    forall finger, In finger nonThumbFingers -> finger <> spared ->
                   gapBetween l 0.05 0.07 finger.
Proof.
  unfold isFist, isPalmOpen.
  destruct (length l <? 21)%nat; [discriminate|].
  destruct (isFingerClosed l LANDMARK.INDEX_TIP LANDMARK.INDEX_MCP)
    as [c1|] eqn:C1; [|discriminate].
  destruct (isFingerClosed l LANDMARK.MIDDLE_TIP LANDMARK.MIDDLE_MCP)
    as [c2|] eqn:C2; [|discriminate].
  destruct (isFingerClosed l LANDMARK.RING_TIP LANDMARK.RING_MCP)
    as [c3|] eqn:C3; [|discriminate].
  destruct (isFingerClosed l LANDMARK.PINKY_TIP LANDMARK.PINKY_MCP)
    as [c4|] eqn:C4; [|discriminate].
  destruct (fingerOpen l LANDMARK.INDEX_MCP LANDMARK.INDEX_TIP)
    as [o1|] eqn:O1; [|discriminate].
  destruct (fingerOpen l LANDMARK.MIDDLE_MCP LANDMARK.MIDDLE_TIP)
    as [o2|] eqn:O2; [|discriminate].
  destruct (fingerOpen l LANDMARK.RING_MCP LANDMARK.RING_TIP)
    as [o3|] eqn:O3; [|discriminate].
  destruct (fingerOpen l LANDMARK.PINKY_MCP LANDMARK.PINKY_TIP)
    as [o4|] eqn:O4; [|discriminate].
  cbn [rbind]. intros Hc Ho.
  destruct c1, c2, c3, c4; try discriminate.
  assert (G : forall tip mcp,
             isFingerClosed l tip mcp = Ok true ->
             fingerOpen l mcp tip = Ok true ->
             gapBetween l 0.05 0.07 (tip, mcp))
    by exact (closed_and_open_gap l).
  unfold nonThumbFingers.
  destruct o1, o2, o3, o4; try discriminate.
  - exists (LANDMARK.INDEX_TIP, LANDMARK.INDEX_MCP). split; [simpl; tauto|].
    intros f Hf Hne. simpl in Hf.
    destruct Hf as [<-|[<-|[<-|[<-|[]]]]]; try contradiction; auto.
  - exists (LANDMARK.PINKY_TIP, LANDMARK.PINKY_MCP). split; [simpl; tauto|].
    intros f Hf Hne. simpl in Hf.
    destruct Hf as [<-|[<-|[<-|[<-|[]]]]]; try contradiction; auto.
  - exists (LANDMARK.RING_TIP, LANDMARK.RING_MCP). split; [simpl; tauto|].
    intros f Hf Hne. simpl in Hf.
    destruct Hf as [<-|[<-|[<-|[<-|[]]]]]; try contradiction; auto.
  - exists (LANDMARK.MIDDLE_TIP, LANDMARK.MIDDLE_MCP). split; [simpl; tauto|].
    intros f Hf Hne. simpl in Hf.
    destruct Hf as [<-|[<-|[<-|[<-|[]]]]]; try contradiction; auto.
  - exists (LANDMARK.INDEX_TIP, LANDMARK.INDEX_MCP). split; [simpl; tauto|].
    intros f Hf Hne. simpl in Hf.
    destruct Hf as [<-|[<-|[<-|[<-|[]]]]]; try contradiction; auto.
Qed.

(** Three fingers half curled, the index finger fully bent. *)
Lemma fist_and_open_palm_only_in_band_witness :
  let l := Fixtures.createLandmarks
             (Fixtures.hand (Fixtures.pt 0.5 0.8)
                (Fixtures.pt 0.4 0.5) (Fixtures.pt 0.4 0.55)
                (Fixtures.pt 0.5 0.5) (Fixtures.pt 0.5 0.44)
                (Fixtures.pt 0.6 0.5) (Fixtures.pt 0.6 0.44)
                (Fixtures.pt 0.7 0.5) (Fixtures.pt 0.7 0.44)) in
  exists spared,
    In spared nonThumbFingers /\
    forall finger, In finger nonThumbFingers -> finger <> spared ->
                   gapBetween l 0.05 0.07 finger.
Proof.
  apply fist_and_open_palm_only_in_band; reflexivity.
Defined.

(** ** Runs of the tracker *)

Lemma trackAll_app (steps more : list (Point * Point)) (s : SwipeTracker.t) :
  trackAll (steps ++ more) s =
  (fst (trackAll steps s) ++ fst (trackAll more (snd (trackAll steps s))),
   snd (trackAll more (snd (trackAll steps s)))).
Proof.
  revert s. induction steps as [|[cur prev] steps IH]; intro s.
  - cbn [app trackAll fst snd]. destruct (trackAll more s). reflexivity.
  - cbn [app trackAll]. destruct (SwipeTracker.track cur prev s) as [r s1].
    rewrite IH. destruct (trackAll steps s1) as [rs s2]. reflexivity.
Qed.

Lemma sumX_snoc (steps : list (Point * Point)) (step : Point * Point) :
  sumX (steps ++ [step]) = sumX steps + stepX step.
Proof. unfold sumX. rewrite fold_left_app. reflexivity. Qed.

Lemma sumY_snoc (steps : list (Point * Point)) (step : Point * Point) :
  sumY (steps ++ [step]) = sumY steps + stepY step.
Proof. unfold sumY. rewrite fold_left_app. reflexivity. Qed.

Lemma calm_prefix (steps : list (Point * Point)) (step : Point * Point) :
  calm (steps ++ [step]) -> calm steps /\ withinThresholds (steps ++ [step]).
Proof.
  intro H. split.
  - intros k Hk. specialize (H k). rewrite length_app in H. cbn in H.
    rewrite firstn_app in H.
    replace (k - length steps)%nat with 0%nat in H by lia.
    cbn in H. rewrite app_nil_r in H. apply H. lia.
  - specialize (H (length (steps ++ [step])) (le_n _)).
    rewrite firstn_all in H. exact H.
Qed.

Lemma step_from_integrated
      (before : list (Point * Point)) (step : Point * Point) (d : Direction) :
  stepDirection step = Some d ->
  SwipeTracker.track (fst step) (snd step) (integrated before d) =
  let ax := sumX (before ++ [step]) in
  let ay := sumY (before ++ [step]) in
  let n := length (before ++ [step]) in
  if ay <? - SWIPE_THRESHOLD then (Some up, SwipeTracker.new)
  else if Qabs ax >? SWIPE_THRESHOLD then
    (Some (if ax >? 0 then left else right), SwipeTracker.new)
  else if (SwipeTracker.maxFrames <=? n)%nat then (None, SwipeTracker.new)
  else (None, integrated (before ++ [step]) d).
Proof.
  intro Hd. rewrite track_unfold. cbv zeta.
  unfold stepDirection, stepX, stepY in Hd. rewrite Hd.
  assert (Hsame : SwipeTracker.directionChanged
                    (SwipeTracker.lastDirection (integrated before d))
                    (Some d) = false).
  { unfold integrated. cbn [SwipeTracker.lastDirection].
    destruct before; cbn [SwipeTracker.directionChanged]; [reflexivity|].
    destruct (Direction_eqb_spec d d); [reflexivity|congruence]. }
  rewrite Hsame. rewrite sumX_snoc, sumY_snoc.
  unfold integrated at 1 2 3. cbn [SwipeTracker.accumulatedX
    SwipeTracker.accumulatedY SwipeTracker.frameCount].
  unfold stepX, stepY.
  replace (length (before ++ [step])) with (S (length before))
    by (rewrite length_app; cbn; lia).
  unfold integrated. rewrite sumX_snoc, sumY_snoc. unfold stepX, stepY.
  replace (length (before ++ [step])) with (S (length before))
    by (rewrite length_app; cbn; lia).
  destruct before; reflexivity.
Qed.

Lemma withinThresholds_tests (steps : list (Point * Point)) :
  withinThresholds steps ->
  (sumY steps <? - SWIPE_THRESHOLD) = false /\
  (Qabs (sumX steps) >? SWIPE_THRESHOLD) = false.
Proof.
  intros [Hy Hx]. split.
  - destruct (Qltb_spec (sumY steps) (- SWIPE_THRESHOLD));
      unfold SWIPE_THRESHOLD in *; [lra|reflexivity].
  - destruct (Qgtb_spec (Qabs (sumX steps)) SWIPE_THRESHOLD);
      unfold SWIPE_THRESHOLD in *; [lra|reflexivity].
Qed.

Lemma track_integrates (steps : list (Point * Point)) (d : Direction) :
  (length steps < 10)%nat ->
  Forall (fun step => stepDirection step = Some d) steps ->
  calm steps ->
  trackAll steps SwipeTracker.new =
  (repeat None (length steps), integrated steps d).
Proof.
  induction steps as [|step steps IH] using rev_ind; intros Hlen Hdir Hcalm.
  - reflexivity.
  - rewrite length_app in Hlen. cbn in Hlen.
    apply Forall_app in Hdir. destruct Hdir as [Hdir Hstep].
    inversion_clear Hstep as [|? ? Hd _].
    apply calm_prefix in Hcalm. destruct Hcalm as [Hcalm Hin].
    rewrite trackAll_app, IH by (lia || assumption).
    cbn [fst snd trackAll]. destruct step as [cur prev].
    change (SwipeTracker.track cur prev (integrated steps d))
      with (SwipeTracker.track (fst (cur, prev)) (snd (cur, prev))
              (integrated steps d)).
    rewrite (step_from_integrated steps (cur, prev) d Hd). cbv zeta.
    destruct (withinThresholds_tests _ Hin) as [-> ->].
    replace (SwipeTracker.maxFrames <=? length (steps ++ [(cur, prev)]))%nat
      with false
      by (symmetry; apply Nat.leb_gt; rewrite length_app; cbn;
          unfold SwipeTracker.maxFrames; lia).
    rewrite length_app, repeat_app. reflexivity.
Qed.

(** X6.  The tracker integrates.  Started fresh and fed fewer than ten steps
    that all have the same dominant direction and never cross a threshold,
    it answers [null] every time and holds the summed motion, the number
    of steps and that direction. *)
Theorem tracker_holds_summed_motion
        (steps : list (Point * Point)) (d : Direction) :
  (length steps < 10)%nat ->
  Forall (fun step => stepDirection step = Some d) steps ->
  calm steps ->
  trackAll steps SwipeTracker.new =
  (repeat None (length steps),
   SwipeTracker.mk (sumX steps) (sumY steps) (length steps)
                   (match steps with [] => None | _ => Some d end)).
Proof. exact (track_integrates steps d). Qed.

Ltac calm_case k :=
  destruct k as [|k]; [split; vm_compute; discriminate|].

Lemma tracker_holds_summed_motion_witness :
  trackAll (steadySteps 0.02 0.01 3) SwipeTracker.new =
  ([None; None; None],
   SwipeTracker.mk (sumX (steadySteps 0.02 0.01 3))
                   (sumY (steadySteps 0.02 0.01 3)) 3 (Some left)) /\
  sumX (steadySteps 0.02 0.01 3) == 0.06.
Proof.
  split; [|reflexivity].
  apply (tracker_holds_summed_motion (steadySteps 0.02 0.01 3) left).
  - cbn. lia.
  - repeat constructor.
  - intros k Hk. do 4 calm_case k. cbn in *. lia.
Defined.

(** X7.  A deliberate slow swipe is reported at the first crossing and at no
    call before.  When at most ten same-direction steps from a fresh tracker
    stay within the thresholds until the last one crosses, every call but
    the last answers [null], the last answers ['up'] if the summed [dy] is
    below -0.06, else ['left'] or ['right'] by the sign of the summed [dx],
    and the tracker is fresh again. *)
Theorem swipe_reported_at_first_crossing
        (before : list (Point * Point)) (step : Point * Point) (d : Direction) :
  (length before < 10)%nat ->
  Forall (fun st => stepDirection st = Some d) (before ++ [step]) ->
  calm before ->
  ~ withinThresholds (before ++ [step]) ->
  exists r,
    trackAll (before ++ [step]) SwipeTracker.new =
    (repeat None (length before) ++ [Some r], SwipeTracker.new) /\
    (sumY (before ++ [step]) < - 0.06 -> r = up) /\
    (- 0.06 <= sumY (before ++ [step]) ->
     (0.06 < sumX (before ++ [step]) -> r = left) /\
     (sumX (before ++ [step]) < - 0.06 -> r = right)).
Proof.
  intros Hlen Hdir Hcalm Hcross.
  apply Forall_app in Hdir. destruct Hdir as [Hdir Hstep].
  inversion_clear Hstep as [|? ? Hd _].
  rewrite trackAll_app, (track_integrates before d Hlen Hdir Hcalm).
  cbn [fst snd trackAll]. destruct step as [cur prev].
  change (SwipeTracker.track cur prev (integrated before d))
    with (SwipeTracker.track (fst (cur, prev)) (snd (cur, prev))
            (integrated before d)).
  rewrite (step_from_integrated before (cur, prev) d Hd). cbv zeta.
  set (ax := sumX (before ++ [(cur, prev)])) in *.
  set (ay := sumY (before ++ [(cur, prev)])) in *.
  unfold withinThresholds in Hcross. fold ax ay in Hcross.
  destruct (Qltb_spec ay (- SWIPE_THRESHOLD)) as [Hy|Hy];
    [|destruct (Qgtb_spec (Qabs ax) SWIPE_THRESHOLD) as [Hx|Hx]];
    unfold SWIPE_THRESHOLD in *.
  - exists up. split; [reflexivity|]. split; [reflexivity|]. intro. lra.
  - assert (Hsign : 0.06 < ax \/ ax < - 0.06).
    { revert Hx. apply Qabs_case; intros; lra. }
    destruct (Qgtb_spec ax 0) as [Hp|Hp].
    + exists left. split; [reflexivity|]. split; [intro; lra|].
      intros _. split; [reflexivity|intro; lra].
    + exists right. split; [reflexivity|]. split; [intro; lra|].
      intros _. split; [intro; lra|reflexivity].
  - exfalso. apply Hcross. split; lra.
Qed.

(** Steps of 0.02 to the camera's right: the fourth one crosses. *)
Lemma swipe_reported_at_first_crossing_witness :
  trackAll (steadySteps 0.02 0 4) SwipeTracker.new =
  ([None; None; None; Some left], SwipeTracker.new).
Proof.
  destruct (swipe_reported_at_first_crossing
              (steadySteps 0.02 0 3)
              (mkPoint (0.5 + 0.02) (0.5 + 0) None, mkPoint 0.5 0.5 None) left)
    as (r & Hrun & _ & Hh).
  - cbn. lia.
  - repeat constructor.
  - intros k Hk. do 4 calm_case k. cbn in *. lia.
  - intros [_ Hx]. vm_compute in Hx. apply Hx. reflexivity.
  - rewrite (proj1 (Hh ltac:(vm_compute; discriminate))
                   ltac:(vm_compute; reflexivity)) in Hrun.
    exact Hrun.
Defined.

(** X8.  A swipe that takes too long is dropped.  Ten same-direction steps
    from a fresh tracker that never cross a threshold all answer [null], and
    on the tenth call the tracker forgets the motion summed so far. *)
Theorem stale_swipe_is_dropped (steps : list (Point * Point)) (d : Direction) :
  length steps = 10%nat ->
  Forall (fun st => stepDirection st = Some d) steps ->
  calm steps ->
  trackAll steps SwipeTracker.new = (repeat None 10, SwipeTracker.new).
Proof.
  intros Hlen Hdir Hcalm.
  destruct steps as [|step steps] using rev_ind; [discriminate|].
  clear IHsteps. rewrite length_app in Hlen. cbn in Hlen.
  apply Forall_app in Hdir. destruct Hdir as [Hdir Hstep].
  inversion_clear Hstep as [|? ? Hd _].
  apply calm_prefix in Hcalm. destruct Hcalm as [Hcalm Hin].
  rewrite trackAll_app, (track_integrates steps d) by (lia || assumption).
  cbn [fst snd trackAll]. destruct step as [cur prev].
  change (SwipeTracker.track cur prev (integrated steps d))
    with (SwipeTracker.track (fst (cur, prev)) (snd (cur, prev))
            (integrated steps d)).
  rewrite (step_from_integrated steps (cur, prev) d Hd). cbv zeta.
  destruct (withinThresholds_tests _ Hin) as [-> ->].
  replace (length (steps ++ [(cur, prev)])) with 10%nat
    by (rewrite length_app; cbn; lia).
  replace (length steps) with 9%nat by lia. reflexivity.
Qed.

(** Ten steps of 0.006: the sum, 0.06, does not exceed the threshold. *)
Lemma stale_swipe_is_dropped_witness :
  sumX (steadySteps 0.006 0 10) == 0.06 /\
  trackAll (steadySteps 0.006 0 10) SwipeTracker.new =
  (repeat None 10, SwipeTracker.new).
Proof.
  split; [reflexivity|].
  apply (stale_swipe_is_dropped (steadySteps 0.006 0 10) left).
  - reflexivity.
  - repeat constructor.
  - intros k Hk. do 11 calm_case k. cbn in *. lia.
Defined.

Lemma wavering_silent (steps : list (Point * Point)) :
  forall s,
    (SwipeTracker.lastDirection s = None -> s = SwipeTracker.new) ->
    wavering (SwipeTracker.lastDirection s) steps ->
    Forall gentle steps ->
    fst (trackAll steps s) = repeat None (length steps).
Proof.
  induction steps as [|[cur prev] steps IH]; intros s Hnew Hwav Hgentle.
  - reflexivity.
  - cbn [wavering] in Hwav. destruct Hwav as [(d & Hd & Hne) Hwav].
    inversion_clear Hgentle as [|? ? [Hgx Hgy] Hrest].
    unfold stepX, stepY in Hgx, Hgy. cbn [fst snd] in Hgx, Hgy.
    cbn [trackAll].
    assert (E : SwipeTracker.track cur prev s =
                (None, SwipeTracker.mk (0 + (x cur - x prev))
                                       (0 + (y cur - y prev)) 1 (Some d))).
    { rewrite track_unfold. cbv zeta.
      unfold stepDirection, stepX, stepY in Hd. cbn [fst snd] in Hd.
      rewrite Hd.
      assert (Hacc :
                (if SwipeTracker.directionChanged
                      (SwipeTracker.lastDirection s) (Some d)
                 then 0 else SwipeTracker.accumulatedX s) = 0 /\
                (if SwipeTracker.directionChanged
                      (SwipeTracker.lastDirection s) (Some d)
                 then 0 else SwipeTracker.accumulatedY s) = 0 /\
                (if SwipeTracker.directionChanged
                      (SwipeTracker.lastDirection s) (Some d)
                 then 0%nat else SwipeTracker.frameCount s) = 0%nat).
      { destruct (SwipeTracker.lastDirection s) as [l|] eqn:El.
        - cbn [SwipeTracker.directionChanged].
          destruct (Direction_eqb_spec d l) as [->|_]; [congruence|].
          cbn [negb]. auto.
        - rewrite (Hnew eq_refl). cbn. auto. }
      destruct Hacc as (-> & -> & ->).
      destruct (Qltb_spec (0 + (y cur - y prev)) (- SWIPE_THRESHOLD));
        [unfold SWIPE_THRESHOLD in *; lra|].
      destruct (Qgtb_spec (Qabs (0 + (x cur - x prev))) SWIPE_THRESHOLD) as [H|H].
      { exfalso. unfold SWIPE_THRESHOLD in H.
        assert (Hz : 0 + (x cur - x prev) == x cur - x prev) by ring.
        rewrite Hz in H. lra. }
      reflexivity. }
    rewrite E.
    specialize (IH (SwipeTracker.mk (0 + (x cur - x prev))
                                    (0 + (y cur - y prev)) 1 (Some d))).
    cbn [SwipeTracker.lastDirection] in IH.
    unfold stepDirection, stepX, stepY in Hwav, Hd.
    cbn [fst snd] in Hwav, Hd. rewrite Hd in Hwav.
    specialize (IH ltac:(discriminate) Hwav Hrest).
    destruct (trackAll steps _) as [rs s']. cbn [fst] in *.
    rewrite IH. reflexivity.
Qed.

(** X9.  A hand that wavers never swipes.  When every step has a dominant
    direction different from the one before and no single step exceeds a
    threshold on its own, a fresh tracker answers [null] at every call,
    however long the run and however large the distance covered. *)
Theorem wavering_hand_never_swipes (steps : list (Point * Point)) :
  wavering None steps -> Forall gentle steps ->
  fst (trackAll steps SwipeTracker.new) = repeat None (length steps).
Proof.
  intros Hwav Hgentle. apply wavering_silent; auto.
Qed.

(** Back and forth by 0.05: four calls, no swipe; two such steps in the same
    direction would have crossed 0.06. *)
Lemma wavering_hand_never_swipes_witness :
  fst (trackAll backAndForth SwipeTracker.new) = [None; None; None; None] /\
  fst (trackAll (steadySteps 0.05 0 2) SwipeTracker.new) = [None; Some left].
Proof.
  split; [|reflexivity].
  apply (wavering_hand_never_swipes backAndForth).
  - cbn [wavering backAndForth].
    repeat split;
      try (eexists; split; [vm_compute; reflexivity|discriminate]).
  - unfold backAndForth.
    repeat (apply Forall_cons; [split; vm_compute; discriminate|]).
    apply Forall_nil.
Defined.

(** ** The two tiers together *)

Lemma detectGesture_none_small_step (cur prev : LandmarkList) :
  (21 <= length cur)%nat -> (21 <= length prev)%nat ->
  detectGesture (Some cur) (Some prev) = Ok none ->
  exists c p,
    getPalmCenter (Some cur) = Ok c /\ getPalmCenter (Some prev) = Ok p /\
    - 0.015 <= y c - y p /\ - 0.015 <= x c - x p <= 0.015.
Proof.
  intros Hc Hp. unfold detectGesture, noHand.
  rewrite (noHand_false cur Hc), (noHand_false prev Hp).
  destruct (isFist (Some cur)) as [[|]|]; cbn [rbind negb]; try discriminate.
  destruct (getPalmCenter_total (Some cur)) as [c ->].
  destruct (getPalmCenter_total (Some prev)) as [p ->]. cbn [rbind].
  unfold getSwipeDirection.
  destruct (Qltb_spec (y c - y p) (- SWIPE_FRAME_THRESHOLD)); [discriminate|].
  destruct (Qgtb_spec (x c - x p) SWIPE_FRAME_THRESHOLD); [discriminate|].
  destruct (Qltb_spec (x c - x p) (- SWIPE_FRAME_THRESHOLD)); [discriminate|].
  intros _. exists c, p. unfold SWIPE_FRAME_THRESHOLD in *.
  split; [reflexivity|]. split; [reflexivity|]. lra.
Qed.

Lemma inject_Z_succ (n : nat) :
  inject_Z (Z.of_nat (S n)) == inject_Z (Z.of_nat n) + 1.
Proof. rewrite Nat2Z.inj_succ, <- Z.add_1_r, inject_Z_plus. reflexivity. Qed.

Lemma slowlyFed_new : slowlyFed SwipeTracker.new.
Proof. split; vm_compute; discriminate. Qed.

Lemma track_small_step (cur prev : Point) (s : SwipeTracker.t) :
  slowlyFed s ->
  - 0.015 <= y cur - y prev -> - 0.015 <= x cur - x prev <= 0.015 ->
  slowlyFed (snd (SwipeTracker.track cur prev s)) /\
  (forall d, fst (SwipeTracker.track cur prev s) = Some d ->
             (4 <= SwipeTracker.frameCount s)%nat).
Proof.
  intros [Hx Hy] Hdy Hdx. unfold slowlyFed in *.
  apply Qabs_Qle_condition in Hx.
  assert (Hn : 0 <= inject_Z (Z.of_nat (SwipeTracker.frameCount s))).
  { change 0 with (inject_Z 0). rewrite <- Zle_Qle. lia. }
  assert (Hsmall : (SwipeTracker.frameCount s <= 3)%nat ->
                   inject_Z (Z.of_nat (SwipeTracker.frameCount s)) <= 3).
  { intro H. change 3 with (inject_Z 3). rewrite <- Zle_Qle. lia. }
  rewrite track_unfold. cbv zeta.
  set (changed := SwipeTracker.directionChanged _ _).
  set (ax := _ + (x cur - x prev)). set (ay := _ + (y cur - y prev)).
  assert (Bx : - (0.015 * (inject_Z (Z.of_nat (SwipeTracker.frameCount s)) + 1))
               <= ax <= 0.015 * (inject_Z (Z.of_nat (SwipeTracker.frameCount s)) + 1)
               /\ (changed = true -> - 0.015 <= ax <= 0.015)).
  { subst ax. destruct changed; split; try discriminate; try lra;
      intros _; lra. }
  assert (By : - (0.015 * (inject_Z (Z.of_nat (SwipeTracker.frameCount s)) + 1))
               <= ay /\ (changed = true -> - 0.015 <= ay)).
  { subst ay. destruct changed; split; try discriminate; try lra;
      intros _; lra. }
  destruct Bx as [Bx Bx1], By as [By By1].
  destruct (Qltb_spec ay (- SWIPE_THRESHOLD)) as [Ty|Ty];
    [|destruct (Qgtb_spec (Qabs ax) SWIPE_THRESHOLD) as [Tx|Tx];
      [|destruct (Nat.leb_spec SwipeTracker.maxFrames
                    (S (if changed then 0%nat else SwipeTracker.frameCount s)))]];
    unfold SWIPE_THRESHOLD in *; cbn [fst snd].
  - split; [exact slowlyFed_new|]. intros d _.
    destruct changed; [specialize (By1 eq_refl); lra|].
    destruct (le_lt_dec 4 (SwipeTracker.frameCount s)) as [H|H]; [exact H|].
    specialize (Hsmall ltac:(lia)). lra.
  - split; [exact slowlyFed_new|]. intros d _.
    assert (Hax : 0.06 < ax \/ ax < - 0.06).
    { revert Tx. apply Qabs_case; intros; lra. }
    destruct changed; [specialize (Bx1 eq_refl); lra|].
    destruct (le_lt_dec 4 (SwipeTracker.frameCount s)) as [H|H]; [exact H|].
    specialize (Hsmall ltac:(lia)). lra.
  - split; [exact slowlyFed_new|]. intros d Hd. discriminate.
  - split; [|intros d Hd; discriminate].
    cbn [SwipeTracker.accumulatedX SwipeTracker.accumulatedY
         SwipeTracker.frameCount].
    rewrite inject_Z_succ. split.
    + apply Qabs_Qle_condition.
      destruct changed.
      * specialize (Bx1 eq_refl). change (inject_Z (Z.of_nat 0)) with 0. lra.
      * lra.
    + destruct changed.
      * specialize (By1 eq_refl). change (inject_Z (Z.of_nat 0)) with 0. lra.
      * lra.
Qed.

Lemma frameGesture_steady
      (cur : LandmarkList) (prev : option LandmarkList)
      (tracker tracker' : SwipeTracker.t) (g : Gesture) :
  (21 <= length cur)%nat ->
  slowlyFed tracker ->
  match prev with Some p => (21 <= length p)%nat | None => True end ->
  frameGesture cur prev tracker = Ok (g, tracker') ->
  slowlyFed tracker' /\
  (detectGesture (Some cur) prev = Ok none -> g <> none ->
   (4 <= SwipeTracker.frameCount tracker)%nat).
Proof.
  intros Hc Hslow Hp. unfold frameGesture.
  destruct (detectGesture (Some cur) prev) as [g0|] eqn:Hd; [|discriminate].
  cbn [rbind].
  destruct g0;
    try (intro H; injection H as <- <-; split;
         [exact Hslow|intro; discriminate]).
  destruct prev as [p|];
    [|intro H; injection H as <- <-; split; [exact Hslow|congruence]].
  destruct (detectGesture_none_small_step cur p Hc Hp Hd)
    as (c & q & -> & -> & Hdy & Hdx).
  cbn [rbind].
  destruct (track_small_step c q tracker Hslow Hdy Hdx) as [Hs He].
  destruct (SwipeTracker.track c q tracker) as [r t1]. cbn [fst snd] in *.
  destruct r as [[| |]|]; intro H; injection H as <- <-;
    (split; [exact Hs|]); intros _ Hg;
    try (eapply He; reflexivity); congruence.
Qed.

Lemma processFrame_steady
      (cards : list Card.t) (hands : list LandmarkList)
      (hovered : option Z) (now : Z) (refs refs' : Refs) (eff : FrameEffects) :
  steadyRefs refs ->
  match hands with l :: _ => (21 <= length l)%nat | [] => True end ->
  processFrame cards hands hovered now refs = Ok (eff, refs') ->
  steadyRefs refs'.
Proof.
  intros [Hslow Hprev] Hfull. unfold processFrame.
  destruct hands as [|l hands].
  - intro H. injection H as <- <-. split; [exact slowlyFed_new|exact I].
  - destruct (getPalmCenter (Some l)) as [c|]; [|discriminate]. cbn [rbind].
    destruct (frameGesture l (previousLandmarksRef refs) (swipeTrackerRef refs))
      as [[g t1]|] eqn:Hf; [|discriminate].
    cbn [rbind].
    destruct (frameGesture_steady _ _ _ _ _ Hfull Hslow Hprev Hf) as [Hs _].
    destruct (GestureStateManager.processGesture g now (gestureManagerRef refs))
      as [[v|] m].
    + destruct (Gesture_eqb v swipe_up || Gesture_eqb v fist).
      * destruct (hoveredCard cards hovered); [|discriminate]. cbn [rbind].
        intro H. injection H as <- <-. split; assumption.
      * intro H. injection H as <- <-. split; assumption.
    + intro H. injection H as <- <-. split; assumption.
Qed.

Lemma processFrames_steady
      (cards : list Card.t) (frames : list (list LandmarkList * option Z * Z)) :
  forall refs effs refs',
    steadyRefs refs -> fullHands frames ->
    processFrames cards frames refs = Ok (effs, refs') ->
    steadyRefs refs'.
Proof.
  induction frames as [|[[hands hovered] now] frames IH];
    intros refs effs refs' Hrefs Hfull.
  - intro H. injection H as <- <-. exact Hrefs.
  - inversion_clear Hfull as [|? ? Hhead Htail]. cbn [fst] in Hhead.
    cbn [processFrames].
    destruct (processFrame cards hands hovered now refs) as [[eff r1]|] eqn:E;
      [|discriminate].
    cbn [rbind snd fst].
    destruct (processFrames cards frames r1) as [[effs1 r2]|] eqn:E2;
      [|discriminate].
    cbn [rbind snd fst]. intro H. injection H as <- <-.
    apply (IH r1 effs1 r2); [|exact Htail|exact E2].
    exact (processFrame_steady _ _ _ _ _ _ _ Hrefs Hhead E).
Qed.

Lemma steadyRefs_initial : steadyRefs initialRefs.
Proof. split; [exact slowlyFed_new|exact I]. Qed.

(** X10.  An accumulated swipe takes at least five frames.  In a session
    whose hands all have 21 landmarks, the per-frame check lets through to
    the tracker only steps of at most 0.015; so whenever a frame's gesture
    comes from the tracker (the per-frame check said ['none'], the caller's
    step did not), the tracker had counted at least four frames before it. *)
Theorem accumulated_swipe_takes_five_frames
        (cards : list Card.t) (frames : list (list LandmarkList * option Z * Z))
        (effs : list FrameEffects) (refs : Refs)
        (cur : LandmarkList) (g : Gesture) (tracker' : SwipeTracker.t) :
  fullHands frames ->
  processFrames cards frames initialRefs = Ok (effs, refs) ->
  (21 <= length cur)%nat ->
  frameGesture cur (previousLandmarksRef refs) (swipeTrackerRef refs)
  = Ok (g, tracker') ->
  detectGesture (Some cur) (previousLandmarksRef refs) = Ok none ->
  g <> none ->
  (4 <= SwipeTracker.frameCount (swipeTrackerRef refs))%nat.
Proof.
  intros Hfull Hrun Hcur Hf Hd Hg.
  destruct (processFrames_steady cards frames initialRefs effs refs
              steadyRefs_initial Hfull Hrun) as [Hslow Hprev].
  exact (proj2 (frameGesture_steady _ _ _ _ _ Hcur Hslow Hprev Hf) Hd Hg).
Qed.

(** The open palm drifting by 0.014 per frame: four tracked steps sum to
    0.056, the fifth crosses 0.06 and is reported as ['swipe-left']. *)
Lemma accumulated_swipe_takes_five_frames_witness :
  exists effs refs,
    processFrames [] (driftingPalm 5) initialRefs = Ok (effs, refs) /\
    map validGesture effs = [None; None; None; None; None] /\
    frameGesture (translate (0.014 * 5) 0 Fixtures.createOpenPalmLandmarks)
                 (previousLandmarksRef refs) (swipeTrackerRef refs)
    = Ok (swipe_left, SwipeTracker.new) /\
    (4 <= SwipeTracker.frameCount (swipeTrackerRef refs))%nat.
Proof.
  eexists. eexists. split; [vm_compute; reflexivity|].
  split; [reflexivity|]. split; [vm_compute; reflexivity|].
  eapply (accumulated_swipe_takes_five_frames [] (driftingPalm 5))
    with (cur := translate (0.014 * 5) 0 Fixtures.createOpenPalmLandmarks)
         (g := swipe_left) (tracker' := SwipeTracker.new).
  - unfold driftingPalm. cbn [seq map].
    repeat (apply Forall_cons; [vm_compute; lia|]). apply Forall_nil.
  - vm_compute. reflexivity.
  - vm_compute. lia.
  - vm_compute. reflexivity.
  - vm_compute. reflexivity.
  - discriminate.
Defined.

(** ** Runs of the debounce gate *)

(** X11.  Events are at least one cooldown apart.  Whatever raw gestures are
    offered at whatever clock readings, the first event comes at least
    [cooldownMs] after the recorded start time and every later event at
    least [cooldownMs] after the event before it. *)
Theorem events_are_a_cooldown_apart
        (inputs : list (Gesture * Z)) (s : GestureStateManager.t) :
  spaced (GestureStateManager.cooldownMs s)
         (GestureStateManager.gestureStartTime s)
         (map snd (emissions inputs s)).
Proof.
  revert s. induction inputs as [|[g now] inputs IH]; intro s.
  - exact I.
  - cbn [emissions]. rewrite processGesture_unfold.
    assert (Hnone : spaced (GestureStateManager.cooldownMs s)
                      (GestureStateManager.gestureStartTime s)
                      (map snd (emissions inputs
                         (GestureStateManager.mk none
                            (GestureStateManager.gestureStartTime s)
                            (GestureStateManager.cooldownMs s)))))
      by exact (IH (GestureStateManager.mk none _ _)).
    assert (Hemit : forall e,
               (now - GestureStateManager.gestureStartTime s
                <? GestureStateManager.cooldownMs s)%Z = false ->
               spaced (GestureStateManager.cooldownMs s)
                 (GestureStateManager.gestureStartTime s)
                 (now :: map snd (emissions inputs
                    (GestureStateManager.mk e now
                       (GestureStateManager.cooldownMs s))))).
    { intros e Hlt. apply Z.ltb_ge in Hlt. split; [exact Hlt|].
      exact (IH (GestureStateManager.mk e now _)). }
    destruct g; try exact Hnone;
      (destruct (Gesture_eqb _ (GestureStateManager.lastGesture s));
       [apply IH|]);
      (destruct (_ <? _)%Z; [apply IH|]);
      cbn [map snd]; apply Hemit; reflexivity.
Qed.

(** X12.  No gesture comes out twice in a row unless a ['none'] was offered
    in between: while only non-none raw gestures are offered, each event
    differs from the event before it, and the first one from the gesture
    the gate is latched on. *)
Theorem no_repeated_event_without_none
        (inputs : list (Gesture * Z)) (s : GestureStateManager.t) :
  Forall (fun input => fst input <> none) inputs ->
  noRepeat (GestureStateManager.lastGesture s) (map fst (emissions inputs s)).
Proof.
  revert s. induction inputs as [|[g now] inputs IH]; intros s Hin.
  - exact I.
  - inversion_clear Hin as [|? ? Hg Hrest]. cbn [fst] in Hg.
    cbn [emissions]. rewrite processGesture_unfold.
    destruct g; try contradiction;
      (match goal with
       | |- context [Gesture_eqb ?e (GestureStateManager.lastGesture s)] =>
         destruct (Gesture_eqb_spec e (GestureStateManager.lastGesture s))
           as [He|He]
       end; [apply IH; exact Hrest|]);
      (destruct (_ <? _)%Z; [apply IH; exact Hrest|]);
      cbn [map fst noRepeat]; (split; [exact He|]);
      match goal with
      | |- noRepeat ?e (map fst (emissions inputs ?s1)) =>
        exact (IH s1 Hrest)
      end.
Qed.

(** A hand held as a fist while swiping now and then, cooldown 600. *)
Lemma no_repeated_event_without_none_witness :
  let t0 := 1700000000000%Z in
  let inputs := [(fist, t0); (fist, t0 + 700); (swipe_left, t0 + 800);
                 (fist, t0 + 1500); (fist, t0 + 2200)]%Z in
  map fst (emissions inputs (GestureStateManager.new (Some 600%Z)))
  = [fist; swipe_left; fist] /\
  noRepeat none
    (map fst (emissions inputs (GestureStateManager.new (Some 600%Z)))).
Proof.
  split; [reflexivity|].
  apply (no_repeated_event_without_none
           [(fist, 1700000000000); (fist, 1700000000000 + 700);
            (swipe_left, 1700000000000 + 800);
            (fist, 1700000000000 + 1500);
            (fist, 1700000000000 + 2200)]%Z
           (GestureStateManager.new (Some 600%Z))).
  repeat (apply Forall_cons; [discriminate|]). apply Forall_nil.
Defined.

(** ** Card selection *)

Lemma includes_In (ids : list String.string) (cardId : String.string) :
  includes ids cardId = true <-> In cardId ids.
Proof.
  unfold includes. rewrite existsb_exists. split.
  - intros (i & Hi & He). apply String.eqb_eq in He. subst. exact Hi.
  - intro H. exists cardId. split; [exact H|apply String.eqb_refl].
Qed.

Lemma includes_false (ids : list String.string) (cardId : String.string) :
  includes ids cardId = false <-> ~ In cardId ids.
Proof.
  rewrite <- includes_In. destruct (includes ids cardId); split;
    congruence.
Qed.

Lemma filter_out_absent (ids : list String.string) (cardId : String.string) :
  ~ In cardId ids ->
  filter (fun id => negb (String.eqb id cardId)) ids = ids.
Proof.
  induction ids as [|i ids IH]; intro H; [reflexivity|].
  cbn [filter]. destruct (String.eqb_spec i cardId) as [->|_].
  - exfalso. apply H. left. reflexivity.
  - cbn [negb]. rewrite IH; [reflexivity|]. intro Hin. apply H. right. exact Hin.
Qed.

Lemma filter_out_present (ids : list String.string) (cardId : String.string) :
  NoDup ids -> In cardId ids ->
  Permutation ids (filter (fun id => negb (String.eqb id cardId)) ids ++ [cardId])
  /\ S (length (filter (fun id => negb (String.eqb id cardId)) ids))
     = length ids.
Proof.
  induction ids as [|i ids IH]; intros Hnd Hin; [contradiction|].
  inversion_clear Hnd as [|? ? Hni Hnd'].
  cbn [filter]. destruct (String.eqb_spec i cardId) as [->|Hne].
  - cbn [negb]. rewrite (filter_out_absent ids cardId Hni). split.
    + apply Permutation_cons_append.
    + reflexivity.
  - cbn [negb]. destruct Hin as [->|Hin]; [congruence|].
    destruct (IH Hnd' Hin) as [Hp Hl]. split.
    + cbn [app]. apply perm_skip. exact Hp.
    + cbn [length]. rewrite Hl. reflexivity.
Qed.

Lemma handleCardSelect_keeps (maxSelections : Z) (cardId : String.string)
      (prev : list String.string) :
  (Z.of_nat (length prev) <= maxSelections)%Z -> NoDup prev ->
  (Z.of_nat (length (fst (handleCardSelect maxSelections cardId prev)))
   <= maxSelections)%Z /\
  NoDup (fst (handleCardSelect maxSelections cardId prev)).
Proof.
  intros Hlen Hnd. unfold handleCardSelect.
  destruct (includes prev cardId) eqn:Hinc; cbn [fst].
  - split.
    + pose proof (filter_length_le
                    (fun id => negb (String.eqb id cardId)) prev). lia.
    + apply NoDup_filter. exact Hnd.
  - apply includes_false in Hinc.
    destruct (Z.ltb_spec (Z.of_nat (length prev)) maxSelections) as [Hlt|Hge];
      cbn [fst].
    + split.
      * rewrite length_app. cbn [length]. lia.
      * apply NoDup_app; [exact Hnd|repeat constructor; intros []|].
        intros a Ha [<-|[]]. exact (Hinc Ha).
    + split; assumption.
Qed.

(** X13.  The selection never outgrows the limit.  Starting from no card,
    whatever cards are picked and in whatever order (picking a selected
    card deselects it), at most [maxSelections] cards are selected and none
    of them twice. *)
Theorem selection_stays_within_limit
        (maxSelections : Z) (cardIds : list String.string) :
  (0 <= maxSelections)%Z ->
  let s := selectAll maxSelections cardIds (mkSelection [] false) in
  (Z.of_nat (length (selectedCardIds s)) <= maxSelections)%Z /\
  NoDup (selectedCardIds s).
Proof.
  intro Hmax. cbv zeta.
  assert (H : forall ids s,
             (Z.of_nat (length (selectedCardIds s)) <= maxSelections)%Z /\
             NoDup (selectedCardIds s) ->
             (Z.of_nat (length (selectedCardIds
                                  (selectAll maxSelections ids s)))
              <= maxSelections)%Z /\
             NoDup (selectedCardIds (selectAll maxSelections ids s))).
  { induction ids as [|c ids IH]; intros s Hs; [exact Hs|].
    unfold selectAll. cbn [fold_left]. apply IH.
    unfold selectCard.
    pose proof (handleCardSelect_keeps maxSelections c (selectedCardIds s)
                  (proj1 Hs) (proj2 Hs)) as Hk.
    destruct (handleCardSelect maxSelections c (selectedCardIds s)).
    exact Hk. }
  apply H. cbn. split; [lia|constructor].
Qed.

Lemma selection_stays_within_limit_witness :
  let s := selectAll 3 SampleIds.picks (mkSelection [] false) in
  selectedCardIds s = SampleIds.kept /\
  (Z.of_nat (length (selectedCardIds s)) <= 3)%Z /\
  NoDup (selectedCardIds s).
Proof.
  split; [reflexivity|].
  apply (selection_stays_within_limit 3). lia.
Defined.

Lemma handleCardSelect_selected (maxSelections : Z) (cardId : String.string)
      (prev : list String.string) :
  In cardId prev ->
  handleCardSelect maxSelections cardId prev =
  (filter (fun id => negb (String.eqb id cardId)) prev, false).
Proof.
  intro H. apply includes_In in H. unfold handleCardSelect. rewrite H.
  reflexivity.
Qed.

Lemma handleCardSelect_room (maxSelections : Z) (cardId : String.string)
      (prev : list String.string) :
  ~ In cardId prev -> (Z.of_nat (length prev) < maxSelections)%Z ->
  handleCardSelect maxSelections cardId prev =
  (prev ++ [cardId],
   (Z.of_nat (length (prev ++ [cardId])) =? maxSelections)%Z).
Proof.
  intros H Hlt. apply includes_false in H. apply Z.ltb_lt in Hlt.
  unfold handleCardSelect. rewrite H, Hlt. reflexivity.
Qed.

Lemma handleCardSelect_full (maxSelections : Z) (cardId : String.string)
      (prev : list String.string) :
  ~ In cardId prev -> (maxSelections <= Z.of_nat (length prev))%Z ->
  handleCardSelect maxSelections cardId prev = (prev, false).
Proof.
  intros H Hge. apply includes_false in H. apply Z.ltb_ge in Hge.
  unfold handleCardSelect. rewrite H, Hge. reflexivity.
Qed.

(** X14.  Picking the same card twice in a row restores the selection: the
    same cards are selected afterwards (a card that was selected moves to
    the end), and the list itself is unchanged when the card was not
    selected before. *)
Theorem picking_twice_restores_selection
        (maxSelections : Z) (cardId : String.string)
        (prev : list String.string) :
  NoDup prev -> (Z.of_nat (length prev) <= maxSelections)%Z ->
  let once := fst (handleCardSelect maxSelections cardId prev) in
  let twice := fst (handleCardSelect maxSelections cardId once) in
  Permutation prev twice /\ (~ In cardId prev -> twice = prev).
Proof.
  intros Hnd Hlen. cbv zeta.
  destruct (in_dec String.string_dec cardId prev) as [Hin|Hout].
  - rewrite (handleCardSelect_selected _ _ _ Hin). cbn [fst].
    destruct (filter_out_present prev cardId Hnd Hin) as [Hperm Hl].
    rewrite handleCardSelect_room.
    + split; [exact Hperm|intro; contradiction].
    + rewrite filter_In. intros [_ H].
      rewrite String.eqb_refl in H. discriminate.
    + lia.
  - destruct (Z.ltb_spec (Z.of_nat (length prev)) maxSelections) as [Hlt|Hge].
    + rewrite (handleCardSelect_room _ _ _ Hout Hlt). cbn [fst].
      rewrite handleCardSelect_selected
        by (apply in_or_app; right; left; reflexivity).
      cbn [fst]. rewrite filter_app. cbn [filter].
      rewrite String.eqb_refl. cbn [negb].
      rewrite (filter_out_absent prev cardId Hout), app_nil_r.
      split; [apply Permutation_refl|reflexivity].
    + rewrite (handleCardSelect_full _ _ _ Hout Hge). cbn [fst].
      rewrite (handleCardSelect_full _ _ _ Hout Hge). cbn [fst].
      split; [apply Permutation_refl|reflexivity].
Qed.

Lemma picking_twice_restores_selection_witness :
  let prev := SampleIds.kept in
  let card := nth 1 SampleIds.picks String.EmptyString in
  ~ In card prev /\
  fst (handleCardSelect 4 card (fst (handleCardSelect 4 card prev))) = prev.
Proof.
  assert (Hout : ~ In (nth 1 SampleIds.picks String.EmptyString)
                      SampleIds.kept).
  { apply includes_false. reflexivity. }
  split; [exact Hout|].
  apply (picking_twice_restores_selection 4
           (nth 1 SampleIds.picks String.EmptyString) SampleIds.kept).
  - unfold SampleIds.kept.
    repeat (constructor; [apply includes_false; reflexivity|]). constructor.
  - cbn. lia.
  - exact Hout.
Defined.

(** X15.  [isComplete] latches.  It is set by the pick that brings the
    selection to [maxSelections] cards, and deselecting a card afterwards
    leaves it set although fewer than [maxSelections] cards remain. *)
Theorem completion_flag_latches
        (maxSelections : Z) (cardId : String.string) (s : Selection) :
  NoDup (selectedCardIds s) ->
  let s' := selectCard maxSelections cardId s in
  (~ In cardId (selectedCardIds s) ->
   Z.of_nat (length (selectedCardIds s)) + 1 = maxSelections ->
   isComplete s' = true /\
   Z.of_nat (length (selectedCardIds s')) = maxSelections)%Z /\
  (In cardId (selectedCardIds s) -> isComplete s = true ->
   isComplete s' = true /\
   S (length (selectedCardIds s')) = length (selectedCardIds s)).
Proof.
  intros Hnd. cbv zeta. unfold selectCard. split.
  - intros Hout Hlen.
    rewrite (handleCardSelect_room _ _ _ Hout) by lia.
    replace (Z.of_nat (length (selectedCardIds s ++ [cardId])) =? maxSelections)%Z
      with true
      by (symmetry; apply Z.eqb_eq; rewrite length_app; cbn [length]; lia).
    cbn [isComplete selectedCardIds]. split; [reflexivity|].
    rewrite length_app. cbn [length]. lia.
  - intros Hin Hc. rewrite (handleCardSelect_selected _ _ _ Hin).
    cbn [isComplete selectedCardIds]. split; [exact Hc|].
    exact (proj2 (filter_out_present _ _ Hnd Hin)).
Qed.

(** Three cards picked out of a limit of three, then the second one
    deselected: two cards left, the flag still set. *)
Lemma completion_flag_latches_witness :
  let s := selectAll 3 (firstn 3 SampleIds.picks) (mkSelection [] false) in
  let s' := selectCard 3 (nth 1 SampleIds.picks String.EmptyString) s in
  isComplete s = true /\
  isComplete s' = true /\
  S (length (selectedCardIds s')) = length (selectedCardIds s) /\
  length (selectedCardIds s') = 2%nat.
Proof.
  split; [reflexivity|].
  assert (H := proj2 (completion_flag_latches 3
                        (nth 1 SampleIds.picks String.EmptyString)
                        (selectAll 3 (firstn 3 SampleIds.picks)
                                   (mkSelection [] false))
                        ltac:(vm_compute;
                              repeat (constructor;
                                      [apply includes_false; reflexivity|]);
                              constructor))).
  cbv zeta in H.
  specialize (H ltac:(apply includes_In; reflexivity) eq_refl).
  destruct H as [H1 H2]. split; [exact H1|]. split; [exact H2|reflexivity].
Defined.

(** ** What is handed to the reading *)

Lemma handleComplete_ids (cards : list Card.t) (selected : list String.string)
      (i : String.string) :
  In i (map Card.id (handleComplete cards selected)) <->
  In i (map Card.id cards) /\ In i selected.
Proof.
  unfold handleComplete. rewrite !in_map_iff. split.
  - intros (c & <- & Hc). apply filter_In in Hc. destruct Hc as [Hc Hs].
    apply includes_In in Hs. split; [exists c; auto|exact Hs].
  - intros [(c & <- & Hc) Hs]. exists c. split; [reflexivity|].
    apply filter_In. split; [exact Hc|]. apply includes_In. exact Hs.
Qed.

Lemma NoDup_map_filter (cards : list Card.t) (f : Card.t -> bool) :
  NoDup (map Card.id cards) -> NoDup (map Card.id (filter f cards)).
Proof.
  induction cards as [|c cards IH]; intro H; [constructor|].
  cbn [map] in H. inversion_clear H as [|? ? Hni Hnd].
  cbn [filter]. destruct (f c); [|exact (IH Hnd)].
  cbn [map]. constructor; [|exact (IH Hnd)].
  intro Hin. apply Hni. apply in_map_iff in Hin.
  destruct Hin as (c' & He & Hc'). apply filter_In in Hc'.
  apply in_map_iff. exists c'. tauto.
Qed.

(** X16.  [handleComplete] hands over exactly the selected cards.  The
    result depends only on which ids are selected, not on the order of
    picking; and when the deck has no duplicate id and the selected ids are
    distinct ids of the deck, the ids handed over are the selected ids, each
    once. *)
Theorem handleComplete_hands_over_selection
        (cards : list Card.t) (selected : list String.string) :
  (forall selected',
     (forall i, In i selected <-> In i selected') ->
     handleComplete cards selected' = handleComplete cards selected) /\
  (NoDup (map Card.id cards) -> NoDup selected ->
   incl selected (map Card.id cards) ->
   Permutation (map Card.id (handleComplete cards selected)) selected).
Proof.
  split.
  - intros selected' Hsame. unfold handleComplete. apply filter_ext.
    intro c. destruct (includes selected (Card.id c)) eqn:E.
    + apply includes_In. apply Hsame. apply includes_In. exact E.
    + apply includes_false. rewrite <- Hsame. apply includes_false. exact E.
  - intros Hdeck Hsel Hincl. apply NoDup_Permutation.
    + apply NoDup_map_filter. exact Hdeck.
    + exact Hsel.
    + intro i. rewrite handleComplete_ids. split; [tauto|].
      intro H. split; [apply Hincl; exact H|exact H].
Qed.

Lemma handleComplete_hands_over_selection_witness :
  map Card.id (handleComplete SampleIds.deck SampleIds.kept)
  = [nth 0 SampleIds.kept String.EmptyString;
     nth 2 SampleIds.kept String.EmptyString;
     nth 1 SampleIds.kept String.EmptyString] /\
  Permutation (map Card.id (handleComplete SampleIds.deck SampleIds.kept))
              SampleIds.kept.
Proof.
  split; [reflexivity|].
  apply (proj2 (handleComplete_hands_over_selection
                  SampleIds.deck SampleIds.kept)).
  - vm_compute.
    repeat (constructor; [apply includes_false; reflexivity|]). constructor.
  - unfold SampleIds.kept.
    repeat (constructor; [apply includes_false; reflexivity|]). constructor.
  - intros i Hi. unfold SampleIds.kept in Hi. cbn [In] in Hi.
    destruct Hi as [<-|[<-|[<-|[]]]]; apply includes_In; reflexivity.
Defined.

(** ** The card under the palm *)

Lemma adjusted_range (v : Q) : 0 <= Qmax 0 (Qmin 1 v) <= 1.
Proof.
  split; [apply Q.le_max_l|].
  apply Q.max_lub; [discriminate|apply Q.le_min_l].
Qed.

Lemma adjusted_one (v : Q) : 1 <= v -> Qmax 0 (Qmin 1 v) == 1.
Proof.
  intro H. rewrite (Q.min_l 1 v H). apply Q.max_r. discriminate.
Qed.

Lemma adjusted_monotone (v w : Q) :
  v <= w -> Qmax 0 (Qmin 1 v) <= Qmax 0 (Qmin 1 w).
Proof.
  intro H. apply Q.max_le_compat_l. apply Q.min_le_compat_l. exact H.
Qed.

Lemma count_nonneg (n : nat) : 0 <= inject_Z (Z.of_nat n).
Proof. change 0 with (inject_Z 0). rewrite <- Zle_Qle. lia. Qed.

(** X17.  The card index under the palm is between 0 and the number of
    cards; [setHoveredIndex] is called with an index of the deck or not at
    all; it is skipped exactly when the index computed is [cards.length];
    and that is the case whenever the deck is empty or the palm centre is
    at [x <= 0.1]. *)
Theorem hover_index_range (palmCenter : Point) (cardCount : nat) :
  (0 <= cardIndexAt palmCenter cardCount <= Z.of_nat cardCount)%Z /\
  (forall i, hoverUpdate palmCenter cardCount = Some i ->
             (0 <= i < Z.of_nat cardCount)%Z) /\
  (hoverUpdate palmCenter cardCount = None <->
   cardIndexAt palmCenter cardCount = Z.of_nat cardCount) /\
  (cardCount = 0%nat \/ x palmCenter <= 0.1 ->
   hoverUpdate palmCenter cardCount = None).
Proof.
  unfold hoverUpdate, cardIndexAt. cbv zeta.
  set (v := (1 - x palmCenter - 0.1) / (1 - 2 * 0.1)).
  set (a := Qmax 0 (Qmin 1 v)).
  set (N := inject_Z (Z.of_nat cardCount)).
  assert (Ha : 0 <= a <= 1) by apply adjusted_range.
  assert (HN : 0 <= N) by apply count_nonneg.
  assert (Hlo : (0 <= Qfloor (a * N))%Z).
  { rewrite <- (Qfloor_Z 0). apply Qfloor_resp_le.
    apply Qmult_le_0_compat; tauto. }
  assert (Hhi : (Qfloor (a * N) <= Z.of_nat cardCount)%Z).
  { rewrite <- (Qfloor_Z (Z.of_nat cardCount)). apply Qfloor_resp_le.
    fold N. rewrite <- (Qmult_1_l N) at 2.
    apply Qmult_le_compat_r; tauto. }
  assert (Hv : v == (0.9 - x palmCenter) / 0.8) by (unfold v; field).
  split; [lia|]. split; [|split].
  - intros i.
    destruct (Z.leb_spec 0 (Qfloor (a * N)));
      destruct (Z.ltb_spec (Qfloor (a * N)) (Z.of_nat cardCount));
      cbn [andb]; try discriminate.
    intro Hsome.
    assert (Hi : i = Qfloor (a * N)) by congruence. lia.
  - destruct (Z.leb_spec 0 (Qfloor (a * N))) as [_|]; [|lia].
    destruct (Z.ltb_spec (Qfloor (a * N)) (Z.of_nat cardCount)) as [Hlt|Hge];
      cbn [andb].
    + split; [discriminate|]. intro E. lia.
    + split; [|reflexivity]. intros _. lia.
  - intro Hedge.
    destruct (Z.leb_spec 0 (Qfloor (a * N))) as [_|]; [|lia].
    destruct (Z.ltb_spec (Qfloor (a * N)) (Z.of_nat cardCount)) as [Hlt|Hge];
      cbn [andb]; [|reflexivity].
    exfalso. destruct Hedge as [->|Hx].
    + lia.
    + assert (H1 : 1 <= v).
      { rewrite Hv. apply Qle_shift_div_l; [reflexivity|]. lra. }
      assert (E : a * N == N).
      { unfold a. rewrite (adjusted_one v H1). ring. }
      rewrite (Qfloor_comp _ _ E) in Hlt. unfold N in Hlt.
      rewrite Qfloor_Z in Hlt. lia.
Qed.

(** A palm at the far edge: the index computed is the number of cards and
    the hover is left as it is; one step inwards the last card is hovered. *)
Lemma hover_index_range_witness :
  cardIndexAt (Fixtures.pt 0.0625 0.5) 10 = 10%Z /\
  hoverUpdate (Fixtures.pt 0.0625 0.5) 10 = None /\
  hoverUpdate (Fixtures.pt 0.125 0.5) 10 = Some 9%Z.
Proof.
  split; [reflexivity|]. split; [|reflexivity].
  apply (hover_index_range (Fixtures.pt 0.0625 0.5) 10).
  right. vm_compute. discriminate.
Defined.

(** X18.  The hover follows the hand, mirrored: a palm centre further along
    the camera's [x] axis never gets a larger card index; at [x >= 0.9] the
    index is 0. *)
Theorem hover_index_mirrors_hand (p q : Point) (cardCount : nat) :
  x p <= x q ->
  (cardIndexAt q cardCount <= cardIndexAt p cardCount)%Z /\
  (0.9 <= x q -> cardIndexAt q cardCount = 0%Z).
Proof.
  intro H. unfold cardIndexAt. cbv zeta. split.
  - apply Qfloor_resp_le. apply Qmult_le_compat_r; [|apply count_nonneg].
    apply adjusted_monotone.
    apply Qmult_le_compat_r; [lra|discriminate].
  - intro Hq.
    set (v := (1 - x q - 0.1) / (1 - 2 * 0.1)).
    assert (Hv : v <= 0).
    { assert (Hv : v == (0.9 - x q) / 0.8) by (unfold v; field).
      rewrite Hv. apply Qle_shift_div_r; [reflexivity|]. lra. }
    assert (E : Qmax 0 (Qmin 1 v) * inject_Z (Z.of_nat cardCount) == 0).
    { rewrite (Q.min_r 1 v) by lra. rewrite (Q.max_l 0 v Hv). ring. }
    rewrite (Qfloor_comp _ _ E). reflexivity.
Qed.

Lemma hover_index_mirrors_hand_witness :
  (cardIndexAt (Fixtures.pt 0.75 0.5) 10 <= cardIndexAt (Fixtures.pt 0.3 0.5) 10)%Z
  /\ cardIndexAt (Fixtures.pt 0.3 0.5) 10 = 7%Z
  /\ cardIndexAt (Fixtures.pt 0.75 0.5) 10 = 1%Z.
Proof.
  split; [|split; reflexivity].
  apply (hover_index_mirrors_hand (Fixtures.pt 0.3 0.5) (Fixtures.pt 0.75 0.5)).
  vm_compute. discriminate.
Defined.

(** ** One frame of the loop *)

Lemma frameGesture_total (l : LandmarkList) (prev : option LandmarkList)
      (tracker : SwipeTracker.t) :
  exists g tracker', frameGesture l prev tracker = Ok (g, tracker').
Proof.
  unfold frameGesture.
  destruct (detectGesture_total (Some l) prev) as [g ->]. cbn [rbind].
  destruct g; try (do 2 eexists; reflexivity).
  destruct prev as [p|]; [|do 2 eexists; reflexivity].
  destruct (getPalmCenter_total (Some l)) as [c ->].
  destruct (getPalmCenter_total (Some p)) as [q ->]. cbn [rbind].
  destruct (SwipeTracker.track c q tracker) as [[[| |]|] t1];
    do 2 eexists; reflexivity.
Qed.

Lemma processGesture_emits (g v : Gesture) (now : Z)
      (s s' : GestureStateManager.t) :
  GestureStateManager.processGesture g now s = (Some v, s') ->
  v = g /\ v <> none.
Proof.
  rewrite processGesture_unfold.
  destruct g; try discriminate;
    (destruct (Gesture_eqb _ (GestureStateManager.lastGesture s));
     [discriminate|]);
    (destruct (_ <? _)%Z; [discriminate|]);
    intro H; injection H as <- _; split; (reflexivity || discriminate).
Qed.

Lemma hoveredCard_total (cards : list Card.t) (hovered : option Z) :
  exists r,
    hoveredCard cards hovered = Ok r /\
    forall cardId, r = Some cardId ->
      exists idx card,
        hovered = Some idx /\ (0 <= idx < Z.of_nat (length cards))%Z /\
        nth_error cards (Z.to_nat idx) = Some card /\ Card.id card = cardId.
Proof.
  unfold hoveredCard. destruct hovered as [idx|];
    [|exists None; split; [reflexivity|discriminate]].
  destruct (Z.leb_spec 0 idx) as [Hlo|];
    [|exists None; split; [reflexivity|discriminate]].
  destruct (Z.ltb_spec idx (Z.of_nat (length cards))) as [Hhi|];
    [|exists None; split; [reflexivity|discriminate]].
  cbn [andb].
  destruct (nth_error cards (Z.to_nat idx)) as [card|] eqn:E.
  - exists (Some (Card.id card)). split; [reflexivity|].
    intros cardId H. injection H as <-. exists idx, card. auto.
  - apply nth_error_None in E. lia.
Qed.

(** X19.  A frame never raises, and asks for nothing it should not.  For
    every deck, detection result (no hand, a short landmark array, several
    hands), hovered index and state of the refs, [processFrame] completes;
    the debounced gesture is never ['none']; and a card is selected only on
    ['swipe-up'] or ['fist'], only when the hovered index lies in the deck,
    and it is the card at that index. *)
Theorem processFrame_is_safe
        (cards : list Card.t) (hands : list LandmarkList)
        (hovered : option Z) (now : Z) (refs : Refs) :
  exists eff refs',
    processFrame cards hands hovered now refs = Ok (eff, refs') /\
    validGesture eff <> Some none /\
    forall cardId, cardSelected eff = Some cardId ->
      (validGesture eff = Some swipe_up \/ validGesture eff = Some fist) /\
      exists idx card,
        hovered = Some idx /\ (0 <= idx < Z.of_nat (length cards))%Z /\
        nth_error cards (Z.to_nat idx) = Some card /\ Card.id card = cardId.
Proof.
  unfold processFrame. destruct hands as [|l hands].
  - do 2 eexists. split; [reflexivity|]. cbn. split; discriminate.
  - destruct (getPalmCenter_total (Some l)) as [c ->]. cbn [rbind].
    destruct (frameGesture_total l (previousLandmarksRef refs)
                (swipeTrackerRef refs)) as (g & t1 & ->).
    cbn [rbind].
    destruct (GestureStateManager.processGesture g now (gestureManagerRef refs))
      as [[v|] m] eqn:Hp.
    + destruct (processGesture_emits _ _ _ _ _ Hp) as [-> Hv].
      destruct (hoveredCard_total cards hovered) as (r & Hr & Hsel).
      destruct (Gesture_eqb_spec g swipe_up) as [->|Hup];
        [|destruct (Gesture_eqb_spec g fist) as [->|Hfist]]; cbn [orb].
      * rewrite Hr. cbn [rbind]. do 2 eexists. split; [reflexivity|].
        cbn [validGesture cardSelected]. split; [discriminate|].
        intros cardId H. split; [left; reflexivity|]. apply Hsel. exact H.
      * rewrite Hr. cbn [rbind]. do 2 eexists. split; [reflexivity|].
        cbn [validGesture cardSelected]. split; [discriminate|].
        intros cardId H. split; [right; reflexivity|]. apply Hsel. exact H.
      * do 2 eexists. split; [reflexivity|].
        cbn [validGesture cardSelected]. split; [congruence|discriminate].
    + do 2 eexists. split; [reflexivity|].
      cbn [validGesture cardSelected]. split; discriminate.
Qed.

Lemma detectGesture_without_previous (cur : option LandmarkList) :
  detectGesture cur None = Ok fist \/ detectGesture cur None = Ok none.
Proof.
  unfold detectGesture. destruct (noHand cur); [right; reflexivity|].
  destruct (isFist_total cur) as [[|] ->]; cbn [rbind noHand negb]; auto.
Qed.

(** X20.  Losing the hand restarts the motion tier only.  A frame without a
    hand leaves the debounce gate as it was (a running cooldown keeps
    running); and the first frame with a hand after it can report ['fist']
    or nothing, never a swipe, and leaves the tracker fresh. *)
Theorem hand_loss_restarts_motion_only
        (cards : list Card.t) (hovered : option Z) (now : Z) (refs : Refs) :
  exists eff lost,
    processFrame cards [] hovered now refs = Ok (eff, lost) /\
    gestureManagerRef lost = gestureManagerRef refs /\
    forall hand others hovered' now' eff' refs',
      processFrame cards (hand :: others) hovered' now' lost
      = Ok (eff', refs') ->
      (validGesture eff' = None \/ validGesture eff' = Some fist) /\
      swipeTrackerRef refs' = SwipeTracker.new.
Proof.
  do 2 eexists. split; [reflexivity|]. split; [reflexivity|].
  intros hand others hovered' now' eff' refs'.
  unfold processFrame.
  cbn [previousLandmarksRef swipeTrackerRef gestureManagerRef].
  destruct (getPalmCenter (Some hand)) as [c|]; [|discriminate].
  cbn [rbind]. unfold frameGesture.
  change (snd (SwipeTracker.reset (swipeTrackerRef refs)))
    with SwipeTracker.new.
  assert (Hg : forall g,
             match g with
             | swipe_left | swipe_right | swipe_up => False
             | _ => True
             end ->
             (let (detectedGesture, swipeTracker) := (g, SwipeTracker.new) in
              let (validGesture, gestureManager) :=
                GestureStateManager.processGesture detectedGesture now'
                  (gestureManagerRef refs) in
              let refs1 := mkRefs (Some hand) swipeTracker gestureManager in
              match validGesture with
              | Some v =>
                if Gesture_eqb v swipe_up || Gesture_eqb v fist then
                  let? selected := hoveredCard cards hovered' in
                  Ok (mkEffects true
                        match hoverUpdate c (length cards) with
                        | Some cardIndex => Some (Some cardIndex)
                        | None => None
                        end validGesture selected, refs1)
                else Ok (mkEffects true
                           match hoverUpdate c (length cards) with
                           | Some cardIndex => Some (Some cardIndex)
                           | None => None
                           end validGesture None, refs1)
              | None => Ok (mkEffects true
                              match hoverUpdate c (length cards) with
                              | Some cardIndex => Some (Some cardIndex)
                              | None => None
                              end None None, refs1)
              end) = Ok (eff', refs') ->
             (validGesture eff' = None \/ validGesture eff' = Some fist) /\
             swipeTrackerRef refs' = SwipeTracker.new).
  { intros g Hg.
    destruct (GestureStateManager.processGesture g now' (gestureManagerRef refs))
      as [[v|] m] eqn:Hp.
    - destruct (processGesture_emits _ _ _ _ _ Hp) as [-> Hv].
      destruct g; try contradiction; try congruence.
      cbn [Gesture_eqb orb].
      destruct (hoveredCard cards hovered'); [|discriminate]. cbn [rbind].
      intro H. injection H as <- <-. split; [right; reflexivity|reflexivity].
    - intro H. injection H as <- <-. split; [left; reflexivity|reflexivity]. }
  destruct (detectGesture_without_previous (Some hand)) as [-> | ->];
    cbn [rbind]; apply Hg; exact I.
Qed.

(** ** Fan layout *)

Lemma inject_Z_mirror (count index : nat) :
  (index < count)%nat ->
  inject_Z (Z.of_nat (count - 1 - index)) ==
  inject_Z (Z.of_nat count) - 1 - inject_Z (Z.of_nat index).
Proof.
  intro H.
  replace (Z.of_nat (count - 1 - index))
    with (Z.of_nat count + - (1) + - Z.of_nat index)%Z by lia.
  rewrite !inject_Z_plus, !inject_Z_opp. ring.
Qed.

(** X21.  The fan is symmetric and evenly spread.  The card at position
    [count - 1 - index] mirrors the card at [index] (opposite [x] offset and
    rotation, same drop), and neighbouring cards are 40 pixels and 5 degrees
    apart. *)
Theorem fan_is_symmetric (count index : nat) :
  (index < count)%nat ->
  let here := cardPosition count index in
  let mirror := cardPosition count (count - 1 - index) in
  let next := cardPosition count (S index) in
  fanX mirror == - fanX here /\ rotate mirror == - rotate here /\
  fanY mirror == fanY here /\
  fanX next - fanX here == 40 /\ rotate next - rotate here == 5.
Proof.
  intro H. cbv zeta. unfold cardPosition. cbn [fanX fanY rotate].
  set (C := inject_Z (Z.of_nat count)).
  set (I := inject_Z (Z.of_nat index)).
  assert (Em : inject_Z (Z.of_nat (count - 1 - index)) - (C - 1) / 2
               == - (I - (C - 1) / 2)).
  { rewrite (inject_Z_mirror count index H). fold C I. field. }
  assert (En : inject_Z (Z.of_nat (S index)) == I + 1)
    by apply inject_Z_succ.
  split; [rewrite Em; ring|]. split; [rewrite Em; ring|].
  split; [rewrite Em, Qabs_opp; reflexivity|].
  split; rewrite En; field.
Qed.

Lemma fan_is_symmetric_witness :
  let fan := cardPositions 10 in
  map fanX fan = map (fun p => - fanX p) (rev fan) /\
  fanX (cardPosition 10 7) == - fanX (cardPosition 10 2) /\
  fanX (cardPosition 10 2) == - 100.
Proof.
  split; [vm_compute; reflexivity|]. split; [|reflexivity].
  apply (fan_is_symmetric 10 2). lia.
Defined.
